(** * ion_functions.data.generic_functions

    A shallow embedding of [ion_functions/data/generic_functions.py] and the
    statements of its specification.

    Number model.  Python/NumPy [float64] values are Rocq's primitive binary64
    floats ([PrimFloat.float]): they carry NaN, the infinities and the signed
    zeros, and evaluate exactly as the interpreter does.  Python integers are
    [Z].  The rotation of [magnetic_correction] needs [cos] and [sin], which
    binary64 does not specify; it is embedded over the real numbers [R]. *)

From Stdlib Require Import String Ascii.
From Stdlib Require Import ZArith List Bool Lia.
From Stdlib Require Import DecimalString.
From Stdlib Require Import Floats.
From Stdlib Require Import QArith Qabs.
From Stdlib Require Import Reals Lra.
Import ListNotations.

Local Open Scope Z_scope.

(** Decimal literals stand for the nearest binary64 value, as in Python. *)
#[local] Set Warnings "-inexact-float".

(* ================================================================== *)
(** * Part I.  Definitions                                             *)
(* ================================================================== *)

(** ** Python run-time: exceptions and fallible results *)

(** The exceptions the embedded code can raise, with their message where the
    source or the interpreter gives one. *)
Inductive exn : Type :=
| IndexError
| ValueError (msg : string)
| TypeError (msg : string)
| OverflowError (msg : string)
| ResolutionError (msg : string)
| OSError (msg : string).

(** A call either returns a value or raises. *)
Inductive result (A : Type) : Type :=
| Return (a : A)
| Raise (e : exn).

Arguments Return {A} a.
Arguments Raise {A} e.

Definition bind {A B : Type} (m : result A) (k : A -> result B) : result B :=
  match m with
  | Return a => k a
  | Raise e => Raise e
  end.

Notation "x <- m ;; k" := (bind m (fun x => k))
  (at level 61, m at next level, right associativity).

Definition raises {A : Type} (m : result A) : bool :=
  match m with
  | Return _ => false
  | Raise _ => true
  end.

(** [mapM f l]: call [f] on the elements from left to right; the first
    exception aborts the whole traversal. *)
Fixpoint mapM {A B : Type} (f : A -> result B) (l : list A) : result (list B) :=
  match l with
  | [] => Return []
  | a :: l' => b <- f a ;; bs <- mapM f l' ;; Return (b :: bs)
  end.

(** ** extract_parameter *)

(** [in_array[index]] for a one-dimensional NumPy array and a Python integer:
    an index in [0, n) selects from the front and an index in [-n, 0) counts
    from the end.  Any other index raises: NumPy reads an integer from
    2^63 up to 2^64 - 1 as an unsigned 64-bit scalar, which does not fit an
    index ([OverflowError]); the remaining ones are out of bounds
    ([IndexError]).  An array has fewer than 2^63 elements, so the order of
    the first two tests cannot be observed. *)
Definition py_getitem {A : Type} (in_array : list A) (index : Z) : result A :=
  let n := Z.of_nat (List.length in_array) in
  let i := if index <? 0 then index + n else index in
  if (0 <=? i) && (i <? n) then
    match nth_error in_array (Z.to_nat i) with
    | Some a => Return a
    | None => Raise IndexError
    end
  else if (2 ^ 63 <=? index) && (index <? 2 ^ 64) then
    Raise (OverflowError "Python int too large to convert to C long")
  else Raise IndexError.

(** [out_value = in_array[index]; return out_value] *)
Definition extract_parameter {A : Type} (in_array : list A) (index : Z) : result A :=
  out_value <- py_getitem in_array index ;;
  Return out_value.

(** The array of the unit test of [extract_parameter]. *)
Definition test_in_array : list Z := [34; 67; 12; 15; 89; 100; 54; 36].

(** ** binary64 helpers *)

(** [float(n)] for a Python integer (exact below 2^53, rounded to nearest
    below 2^63, which covers every integer this module converts). *)
Definition float_of_Z (n : Z) : float :=
  if n <? 0 then (- PrimFloat.of_uint63 (Uint63.of_Z (- n)))%float
  else PrimFloat.of_uint63 (Uint63.of_Z n).

(** The exact rational value of a finite float (0 for NaN and infinities,
    which callers exclude with [is_finite]). *)
Definition Q_of_float (f : float) : Q :=
  match Prim2SF f with
  | S754_finite s m e =>
      let mag := if 0 <=? e then inject_Z (Z.pos m * 2 ^ e)
                 else Qmake (Z.pos m) (Z.to_pos (2 ^ (- e))) in
      if s then Qopp mag else mag
  | _ => 0%Q
  end.

(** [math.modf]'s integer part: truncation towards zero of a finite float. *)
Definition trunc_float (f : float) : Z :=
  match Prim2SF f with
  | S754_finite s m e =>
      let mag := if 0 <=? e then Z.pos m * 2 ^ e else Z.pos m / 2 ^ (- e) in
      if s then - mag else mag
  | _ => 0
  end.

(** [round(f)] of a finite float to the nearest integer, ties to even. *)
Definition round_half_even_float (f : float) : Z :=
  match Prim2SF f with
  | S754_finite s m e =>
      let mag :=
        if 0 <=? e then Z.pos m * 2 ^ e
        else
          let d := 2 ^ (- e) in
          let q := Z.pos m / d in
          let r := Z.pos m mod d in
          if (d <? 2 * r) || ((d =? 2 * r) && Z.odd q) then q + 1 else q in
      if s then - mag else mag
  | _ => 0
  end.

(** ** datetime: proleptic Gregorian dates (CPython's [datetime] module) *)

Record date : Type := mkdate { year : Z; month : Z; day : Z }.

Definition _is_leap (y : Z) : bool :=
  (y mod 4 =? 0) && (negb (y mod 100 =? 0) || (y mod 400 =? 0)).

(** Days before January 1st of year [y]. *)
Definition _days_before_year (y : Z) : Z :=
  let y1 := y - 1 in y1 * 365 + y1 / 4 - y1 / 100 + y1 / 400.

Definition _DAYS_IN_MONTH : list Z :=
  [-1; 31; 28; 31; 30; 31; 30; 31; 31; 30; 31; 30; 31].

Definition _DAYS_BEFORE_MONTH : list Z :=
  [-1; 0; 31; 59; 90; 120; 151; 181; 212; 243; 273; 304; 334].

Definition _days_before_month (y m : Z) : Z :=
  nth (Z.to_nat m) _DAYS_BEFORE_MONTH 0
  + (if (2 <? m) && _is_leap y then 1 else 0).

(** Proleptic ordinal of a date: 0001-01-01 is day 1. *)
Definition _ymd2ord (y m d : Z) : Z :=
  _days_before_year y + _days_before_month y m + d.

Definition toordinal (dt : date) : Z := _ymd2ord (year dt) (month dt) (day dt).

Definition _DI400Y : Z := _days_before_year 401.
Definition _DI100Y : Z := _days_before_year 101.
Definition _DI4Y : Z := _days_before_year 5.

Definition _ord2ymd (ordinal : Z) : date :=
  let n := ordinal - 1 in
  let n400 := n / _DI400Y in
  let n := n mod _DI400Y in
  let y := n400 * 400 + 1 in
  let n100 := n / _DI100Y in
  let n := n mod _DI100Y in
  let n4 := n / _DI4Y in
  let n := n mod _DI4Y in
  let n1 := n / 365 in
  let n := n mod 365 in
  let y := y + n100 * 100 + n4 * 4 + n1 in
  if (n1 =? 4) || (n100 =? 4) then mkdate (y - 1) 12 31
  else
    let leapyear := (n1 =? 3) && (negb (n4 =? 24) || (n100 =? 3)) in
    let m := Z.shiftr (n + 50) 5 in
    let preceding :=
      nth (Z.to_nat m) _DAYS_BEFORE_MONTH 0
      + (if (2 <? m) && leapyear then 1 else 0) in
    if n <? preceding then
      let m' := m - 1 in
      let preceding' :=
        preceding - (nth (Z.to_nat m') _DAYS_IN_MONTH 0
                     + (if (m' =? 2) && leapyear then 1 else 0)) in
      mkdate y m' (n - preceding' + 1)
    else mkdate y m (n - preceding + 1).

(** Ordinal of 9999-12-31, the last date [datetime] represents. *)
Definition _MAXORDINAL : Z := 3652059.

(** Ordinal of 1970-01-01, the origin of [time.gmtime]. *)
Definition _UNIX_EPOCH_ORDINAL : Z := 719163.

(** The first three fields [(tm_year, tm_mon, tm_mday)] of [time.gmtime(secs)]
    for whole seconds. *)
Definition gmtime_ymd (secs : Z) : date :=
  _ord2ymd (_UNIX_EPOCH_ORDINAL + secs / 86400).

(** [date1 - date2]: a [timedelta] of whole days. *)
Definition date_sub (d1 d2 : date) : Z := toordinal d1 - toordinal d2.

(** [timedelta(days).total_seconds()]. *)
Definition total_seconds (days : Z) : float := float_of_Z (days * 86400).

(** [datetime.datetime.utcfromtimestamp(t).date()], as CPython's C
    implementation does it on a platform with a 64-bit [time_t] and the GNU
    C library.  A NaN is refused ([ValueError]).  Otherwise the time stamp
    is split into whole seconds and microseconds, rounded half-even and
    carried into the seconds; seconds that do not fit [time_t] (an infinity
    among them) are an [OverflowError]; [gmtime] fails with [OSError] when
    the year does not fit a C [int]; and a year outside 1..9999 is a
    [ValueError] of the [datetime] constructor. *)
Definition utcfromtimestamp_date (t : float) : result date :=
  if PrimFloat.is_nan t then
    Raise (ValueError "Invalid value NaN (not a number)")
  else if PrimFloat.is_infinity t then
    Raise (OverflowError "timestamp out of range for platform time_t")
  else
    let secs := trunc_float t in
    if negb ((- 2 ^ 63 <=? secs) && (secs <? 2 ^ 63)) then
      Raise (OverflowError "timestamp out of range for platform time_t")
    else
      let frac := (t - float_of_Z secs)%float in
      let us := round_half_even_float (frac * 1000000)%float in
      let secs :=
        if 1000000 <=? us then secs + 1
        else if us <? 0 then secs - 1 else secs in
      let dt := _ord2ymd (_UNIX_EPOCH_ORDINAL + secs / 86400) in
      let tm_year := year dt - 1900 in
      if negb ((- 2 ^ 31 <=? tm_year) && (tm_year <? 2 ^ 31)) then
        Raise (OSError "[Errno 75] Value too large for defined data type")
      else if (1 <=? year dt) && (year dt <=? 9999) then Return dt
      else
        Raise (ValueError
                 ("year " ++ NilZero.string_of_int (Z.to_int (year dt))
                  ++ " is out of range")).

(** ** ntp_to_unix_time *)

(** [SYSTEM_EPOCH = datetime.date( *time.gmtime(0)[0:3])] *)
Definition SYSTEM_EPOCH : date := gmtime_ymd 0.

(** [NTP_EPOCH = datetime.date(1900, 1, 1)] *)
Definition NTP_EPOCH : date := mkdate 1900 1 1.

(** [NTP_DELTA = (SYSTEM_EPOCH - NTP_EPOCH).total_seconds()] *)
Definition NTP_DELTA : float := total_seconds (date_sub SYSTEM_EPOCH NTP_EPOCH).

(** [ne.evaluate('ntp_timestamp - NTP_DELTA')] on one element. *)
Definition ntp_to_unix_time (ntp_timestamp : float) : float :=
  (ntp_timestamp - NTP_DELTA)%float.

(** The same expression over an array. *)
Definition ntp_to_unix_time_array (ntp_timestamp : list float) : list float :=
  map ntp_to_unix_time ntp_timestamp.

(** ** String formatting with [%] *)

(** The values this module formats. *)
Inductive pyval : Type :=
| VStr (s : string)
| VInt (n : Z).

Definition py_str (v : pyval) : string :=
  match v with
  | VStr s => s
  | VInt n => NilZero.string_of_int (Z.to_int n)
  end.

Fixpoint spaces (n : nat) : string :=
  match n with
  | O => EmptyString
  | S n' => String " " (spaces n')
  end.

(** Right-justify in a field of width [w]. *)
Definition pad_left (w : nat) (s : string) : string :=
  (spaces (w - String.length s) ++ s)%string.

Definition digit_of_ascii (c : ascii) : option nat :=
  let n := nat_of_ascii c in
  if (48 <=? n)%nat && (n <=? 57)%nat then Some (n - 48)%nat else None.

(** Scanner state: in literal text, or inside a conversion specifier whose
    field width so far is [width]. *)
Inductive fmt_state : Type :=
| Literal
| Spec (width : nat).

(** [fmt % args], scanning [fmt] from left to right.  A specifier with no
    argument left raises [TypeError], as does an argument left over at the
    end. *)
Fixpoint format_go (fmt : string) (st : fmt_state) (args : list pyval)
  : result string :=
  match fmt with
  | EmptyString =>
      match st with
      | Literal =>
          match args with
          | [] => Return EmptyString
          | _ :: _ =>
              Raise (TypeError "not all arguments converted during string formatting")
          end
      | Spec _ => Raise (ValueError "incomplete format")
      end
  | String c rest =>
      match st with
      | Literal =>
          if Ascii.eqb c "%" then format_go rest (Spec 0) args
          else s <- format_go rest Literal args ;; Return (String c s)
      | Spec w =>
          match digit_of_ascii c with
          | Some d => format_go rest (Spec (10 * w + d)) args
          | None =>
              if Ascii.eqb c "s" then
                match args with
                | [] => Raise (TypeError "not enough arguments for format string")
                | a :: args' =>
                    s <- format_go rest Literal args' ;;
                    Return (pad_left w (py_str a) ++ s)%string
                end
              else if Ascii.eqb c "d" then
                match args with
                | [] => Raise (TypeError "not enough arguments for format string")
                | VInt n :: args' =>
                    s <- format_go rest Literal args' ;;
                    Return (pad_left w (py_str (VInt n)) ++ s)%string
                | VStr _ :: _ =>
                    Raise (TypeError "%d format: a number is required, not str")
                end
              else if Ascii.eqb c "%" then
                s <- format_go rest Literal args ;; Return (String "%" s)
              else Raise (ValueError "unsupported format character")
          end
      end
  end.

(** [fmt % args]; a single non-tuple right operand is the one-element list. *)
Definition py_format (fmt : string) (args : list pyval) : result string :=
  format_go fmt Literal args.

(** The line [print(a, b, ...)] writes. *)
Definition print_line (args : list pyval) : string :=
  String.concat " " (map py_str args).

(** ** The declination pipeline *)

Definition __name__ : string := "ion_functions.data.generic_functions".

Section Declination.

(** [pkg_resources.resource_filename(package, resource)]: the resource
    provider, external to this module. *)
Variable resource_filename : string -> string -> result string.

(** The geomagnetic model class [ion_functions.data.wmm.WMM], a compiled
    collaborator: its constructor takes what [set_wmm_model] returned, and
    [declination(lat, lon, z_km, date)] gives degrees. *)
Variable wmm_t : Type.
Variable WMM : option string -> result wmm_t.
Variable declination : wmm_t -> float -> float -> float -> date -> float.

(** [set_wmm_model(year)], as what it printed and how it ended.  The [try]
    catches [ResolutionError] only; its handler formats a message with two
    specifiers from the single operand [e] ([... % e, year] parses as
    [(... % e), year]), prints, and falls off the end, returning [None]. *)
Definition set_wmm_model (year : Z) : list string * result (option string) :=
  match py_format "WMM%4d.COF" [VInt year] with
  | Raise e => ([], Raise e)
  | Return cof_file =>
      match resource_filename __name__ cof_file with
      | Return wmm_model => ([], Return (Some wmm_model))
      | Raise (ResolutionError e) =>
          match py_format
                  "Error Type %s: Unable to find the WMM%4d.COF Coefficients file"
                  [VStr e] with
          | Raise e' => ([], Raise e')
          | Return msg => ([print_line [VStr msg; VInt year]], Return None)
          end
      | Raise e => ([], Raise e)
      end
  end.

(** The depth block shared by [wmm_declination] and [wmm_declination_remod]:
<<
    z = z / 1000.
    if z > 0 & zflag == -1:
        z = zflag * z
>>
    [&] binds tighter than the comparisons, so the test is the chained
    comparison [z > (0 & zflag) == -1], that is
    [z > (0 & zflag) and (0 & zflag) == -1]. *)
Definition depth_km (z : float) (zflag : Z) : float :=
  let z := (z / 1000)%float in
  let t := Z.land 0 zflag in
  if (float_of_Z t <? z)%float && (t =? -1) then (float_of_Z zflag * z)%float
  else z.

(** The test as the specification words it: the logical conjunction of
    [z > 0] and [zflag == -1]. *)
Definition spec_depth_km (z : float) (zflag : Z) : float :=
  let z := (z / 1000)%float in
  if (0 <? z)%float && (zflag =? -1) then (float_of_Z zflag * z)%float
  else z.

Definition wmm_declination_remod
  (lat lon ntp_timestamp : float) (wmm : wmm_t) (z : float) (zflag : Z)
  : result float :=
  let unix_timestamp := (ntp_timestamp - 2208988800)%float in
  dates <- utcfromtimestamp_date unix_timestamp ;;
  let z := depth_km z zflag in
  let mag_dec := declination wmm lat lon z dates in
  Return mag_dec.

Definition wmm_declination
  (lat lon ntp_timestamp : float) (z : float) (zflag : Z) : result float :=
  let unix_timestamp := (ntp_timestamp - 2208988800)%float in
  dates <- utcfromtimestamp_date unix_timestamp ;;
  wmm_model <- snd (set_wmm_model 2010) ;;
  wmm <- WMM wmm_model ;;
  let z := depth_km z zflag in
  let mag_dec := declination wmm lat lon z dates in
  Return mag_dec.

(** NumPy broadcasting of one-dimensional operands: every length is the
    common one or 1. *)
Definition broadcast_len (acc : option nat) (len : nat) : option nat :=
  match acc with
  | None => None
  | Some n =>
      if (len =? 1)%nat then Some n
      else if (n =? 1)%nat then Some len
      else if (n =? len)%nat then Some n
      else None
  end.

Definition broadcast_shape (lens : list nat) : option nat :=
  fold_left broadcast_len lens (Some 1%nat).

Definition broadcast_to {A : Type} (n : nat) (l : list A) : list A :=
  match l with
  | [a] => repeat a n
  | _ => l
  end.

(** [np.vectorize(wmm_declination_remod)(lat, lon, ntp_timestamp, wmm, z, zflag)],
    with no [otypes] given.  [vectorize] first refuses an operand of size 0,
    then calls the function once on the first element of every operand to
    learn the type of the output (an exception of that call leaves through
    the whole expression), and only then broadcasts the operands and calls
    the function element by element; operands that cannot be broadcast are
    a [ValueError] (the interpreter appends the shapes to the message), and
    an exception in any call leaves through the whole expression. *)
Definition vectorize_wmm_declination_remod
  (lat lon ntp_timestamp : list float) (wmm : wmm_t) (z : list float) (zflag : Z)
  : result (list float) :=
  match lat, lon, ntp_timestamp, z with
  | la0 :: _, lo0 :: _, t0 :: _, z0 :: _ =>
      _ <- wmm_declination_remod la0 lo0 t0 wmm z0 zflag ;;
      match broadcast_shape
              [List.length lat; List.length lon; List.length ntp_timestamp;
               List.length z] with
      | None => Raise (ValueError "operands could not be broadcast together")
      | Some n =>
          mapM (fun a : float * float * float * float =>
                  let '(la, lo, t, zz) := a in
                  wmm_declination_remod la lo t wmm zz zflag)
               (combine (combine (combine (broadcast_to n lat) (broadcast_to n lon))
                                 (broadcast_to n ntp_timestamp))
                        (broadcast_to n z))
      end
  | _, _, _, _ =>
      Raise (ValueError "cannot call `vectorize` on size 0 inputs unless `otypes` is set")
  end.

Definition magnetic_declination
  (lat lon ntp_timestamp : list float) (z : list float) (zflag : Z)
  : result (list float) :=
  wmm_model <- snd (set_wmm_model 2010) ;;
  wmm <- WMM wmm_model ;;
  mag_dec <- vectorize_wmm_declination_remod lat lon ntp_timestamp wmm z zflag ;;
  Return mag_dec.

End Declination.

(** ** bilinear_interpolation *)

(** An element of the structured dtype ['f8,f8,f8']. *)
Definition record3 : Type := (float * float * float)%type.

(** [row.view('f8,f8,f8')]: every three consecutive float64 of a row become
    one record; a row whose width is not a multiple of three cannot be
    viewed. *)
Fixpoint view_f8x3 (row : list float) : result (list record3) :=
  match row with
  | [] => Return []
  | a :: b :: c :: rest => rs <- view_f8x3 rest ;; Return ((a, b, c) :: rs)
  | _ => Raise (ValueError "new type not compatible with array")
  end.

(** Order on records by field [f0], then [f1]. *)
Definition record_ltb (r s : record3) : bool :=
  let '(a, b, _) := r in
  let '(c, d, _) := s in
  (a <? c)%float || ((a =? c)%float && (b <? d)%float).

Fixpoint insert_record (r : record3) (l : list record3) : list record3 :=
  match l with
  | [] => [r]
  | s :: l' => if record_ltb r s then r :: s :: l' else s :: insert_record r l'
  end.

(** [np.sort(a, order=['f0', 'f1'])] of a two-dimensional array of records:
    NumPy sorts along the last axis, that is inside each row. *)
Definition np_sort_order_f0_f1 (a : list (list record3)) : list (list record3) :=
  map (fold_right insert_record []) a.

(** [bilinear_interpolation(x, y, points)] for [points] an array of rows.
    The sorted copy [pts] is computed and never read: the corners are
    unpacked from [points], in the order they were given.  Unpacking anything
    but four rows of three values is a [ValueError] (one message stands for
    the interpreter's several).  The operands are NumPy float64, whose
    division by zero returns an infinity or NaN instead of raising. *)
Definition bilinear_interpolation (x y : float) (points : list (list float))
  : result float :=
  pts <- (views <- mapM view_f8x3 points ;; Return (np_sort_order_f0_f1 views)) ;;
  match points with
  | [[x1; y1; q11]; [_x1; y2; q12]; [x2; _y1; q21]; [_x2; _y2; q22]] =>
      if negb (x1 =? _x1)%float || negb (x2 =? _x2)%float
         || negb (y1 =? _y1)%float || negb (y2 =? _y2)%float then
        Raise (ValueError "points do not form a rectangle")
      else if negb ((x1 <=? x)%float && (x <=? x2)%float)
              || negb ((y1 <=? y)%float && (y <=? y2)%float) then
        Raise (ValueError "(x, y) not within the rectangle")
      else
        Return ((q11 * (x2 - x) * (y2 - y) +
                 q21 * (x - x1) * (y2 - y) +
                 q12 * (x2 - x) * (y - y1) +
                 q22 * (x - x1) * (y - y1)) / ((x2 - x1) * (y2 - y1) + 0))%float
  | _ => Raise (ValueError "too many values to unpack")
  end.

(** The sample of the docstring, in the order the docstring gives it, and the
    same four corners ordered by x, then by y. *)
Definition doc_points : list (list float) :=
  [[10; 4; 100]; [20; 4; 200]; [10; 6; 150]; [20; 6; 300]]%float.

Definition doc_points_sorted : list (list float) :=
  [[10; 4; 100]; [10; 6; 150]; [20; 4; 200]; [20; 6; 300]]%float.

(** The area-weighted average as the specification states it: each corner
    value times the area of the diagonally opposite sub-rectangle, over the
    area of the rectangle. *)
Definition area_weighted (x y x1 y1 x2 y2 q11 q12 q21 q22 : float) : float :=
  ((q11 * (x2 - x) * (y2 - y) +
    q21 * (x - x1) * (y2 - y) +
    q12 * (x2 - x) * (y - y1) +
    q22 * (x - x1) * (y - y1)) / ((x2 - x1) * (y2 - y1) + 0))%float.

(** ** error *)

(** [error(x, y) = np.abs(x - y) / np.abs(y)]: the error of [x] relative to
    the reference [y], on one element. *)
Definition error (x y : float) : float := (abs (x - y) / abs y)%float.

(** ** magnetic_correction, over the real numbers *)

(** [theta] is a scalar or a one-dimensional array. *)
Inductive theta_t : Type :=
| ThetaScalar (t : R)
| ThetaArray (ts : list R).

(** A slice [cor[i]] of the product: one-dimensional when [M] is 2x2,
    two-dimensional when [M] is 2x2xN. *)
Inductive cor_t : Type :=
| Cor1 (row : list R)
| Cor2 (rows : list (list R)).

(** [np.radians] *)
Definition radians (x : R) : R := (x * (PI / 180))%R.

(** [np.array([u, v])]: the two rows must have one length. *)
Definition np_array_uv (u v : list R) : result (list R * list R) :=
  if (List.length u =? List.length v)%nat then Return (u, v)
  else Raise (ValueError "setting an array element with a sequence")%string.

(** [np.dot(a, B)] for a vector [a] along the contracted (last) axis and the
    two-row matrix [B = [u, v]]: the axis must have length 2, and entry [k]
    of the product is [a[0]*u[k] + a[1]*v[k]]. *)
Definition dot_uv (a : list R) (B : list R * list R) : result (list R) :=
  match a with
  | [a0; a1] =>
      Return (map (fun p : R * R => (a0 * fst p + a1 * snd p)%R)
                  (combine (fst B) (snd B)))
  | _ => Raise (ValueError "shapes not aligned")%string
  end.

(** [magnetic_correction(theta, u, v)], with [u] and [v] already
    one-dimensional ([np.atleast_1d] turns a scalar into its one-element
    array).  This is the real-number reading of the function: it gives the
    shape of the result, the formula of each entry and the exact algebra of
    the rotation, and says nothing of the rounding of [cos], [sin] and the
    products in binary64. *)
Definition magnetic_correction (theta : theta_t) (u v : list R)
  : result (cor_t * cor_t) :=
  match theta with
  | ThetaScalar t =>
      let theta_rad := radians t in
      let cosT := cos theta_rad in
      let sinT := sin theta_rad in
      B <- np_array_uv u v ;;
      c0 <- dot_uv [cosT; sinT] B ;;
      c1 <- dot_uv [(-1 * sinT)%R; cosT] B ;;
      Return (Cor1 c0, Cor1 c1)
  | ThetaArray ts =>
      let theta_rad := map radians ts in
      let cosT := map cos theta_rad in
      let sinT := map sin theta_rad in
      B <- np_array_uv u v ;;
      c00 <- dot_uv cosT B ;;
      c01 <- dot_uv sinT B ;;
      c10 <- dot_uv (map (Rmult (-1)) sinT) B ;;
      c11 <- dot_uv cosT B ;;
      Return (Cor2 [c00; c01], Cor2 [c10; c11])
  end.

(** The rotation the specification states, for one pair and one angle in
    degrees. *)
Definition rotate_east (theta e n : R) : R :=
  (e * cos (radians theta) + n * sin (radians theta))%R.

Definition rotate_north (theta e n : R) : R :=
  (- e * sin (radians theta) + n * cos (radians theta))%R.

(** The specification's per-element reading: pair [k] is rotated by angle
    [k]. *)
Fixpoint rotate_each (f : R -> R -> R -> R) (thetas u v : list R) : list R :=
  match thetas, u, v with
  | t :: thetas', e :: u', n :: v' => f t e n :: rotate_each f thetas' u' v'
  | _, _, _ => []
  end.

(** ** Sample collaborators *)

(** A resource provider that finds every resource, and a stand-in model
    whose declination is NaN as soon as an argument is. *)
Definition provider_all : string -> string -> result string :=
  fun package resource => Return (package ++ "/" ++ resource)%string.

(** A package as installed: the directory of its module and the resource
    files that directory holds. *)
Record package : Type := mkpackage {
  module_path : string;
  resources : list string
}.

(** [pkg_resources.resource_filename(module_name, resource)] for a module on
    the file system (the default provider): the directory of the module
    joined with the resource name.  The files present play no part: the name
    is returned whether or not the resource exists, and no [ResolutionError]
    is raised. *)
Definition default_resource_filename (pkg : package)
  : string -> string -> result string :=
  fun _ resource => Return (module_path pkg ++ "/" ++ resource)%string.

(** The package as distributed: the 2010 coefficients only. *)
Definition ion_functions_data : package :=
  mkpackage "ion_functions/data" ["WMM2010.COF"%string].

(** A model constructor that cannot read its coefficient file. *)
Definition failing_WMM (wmm_model : option string) : result unit :=
  Raise (OSError "cannot open the coefficient file").

Definition sample_WMM (wmm_model : option string) : result unit := Return tt.

Definition sample_declination
  (_ : unit) (lat lon z : float) (_ : date) : float :=
  (lat + lon + z)%float.

(** The observations of a batch, index by index. *)
Definition observations (lat lon ntp_timestamp z : list float)
  : list (float * float * float * float) :=
  combine (combine (combine lat lon) ntp_timestamp) z.

(** The fields of one observation. *)
Definition obs_lat (o : float * float * float * float) : float := fst (fst (fst o)).
Definition obs_lon (o : float * float * float * float) : float := snd (fst (fst o)).
Definition obs_time (o : float * float * float * float) : float := snd (fst o).
Definition obs_z (o : float * float * float * float) : float := snd o.

(** Some field of the observation other than its time stamp is NaN. *)
Definition obs_has_nan (o : float * float * float * float) : bool :=
  PrimFloat.is_nan (obs_lat o) || PrimFloat.is_nan (obs_lon o)
  || PrimFloat.is_nan (obs_z o).

(** ** Classes of binary64 values used in the proofs *)

(** A zero of either sign, or NaN: the values a product with a zero factor
    can take. *)
Definition zero_or_nan (s : spec_float) : bool :=
  match s with
  | S754_zero _ | S754_nan => true
  | _ => false
  end.

Definition f_zero_or_nan (f : float) : bool := zero_or_nan (Prim2SF f).

(** Equality of two specified floats up to the sign of zero, NaN excluded:
    what [==] decides. *)
Definition sf_same (a b : spec_float) : Prop :=
  a <> S754_nan /\
  (a = b \/ exists s s', a = S754_zero s /\ b = S754_zero s').

(* ================================================================== *)
(** * Part II.  Lemmas and theorems                                    *)
(* ================================================================== *)

(** ** binary64 facts *)

Lemma is_nan_Prim2SF (f : float) :
  PrimFloat.is_nan f = true -> Prim2SF f = S754_nan.
Proof. intros H. unfold Prim2SF. now rewrite H. Qed.

Lemma Prim2SF_is_nan (f : float) :
  Prim2SF f = S754_nan -> PrimFloat.is_nan f = true.
Proof.
  intros H. unfold PrimFloat.is_nan.
  rewrite FloatAxioms.eqb_spec, H. reflexivity.
Qed.

Lemma sub_nan_l (x y : float) :
  PrimFloat.is_nan x = true -> PrimFloat.is_nan (x - y) = true.
Proof.
  intros H. apply Prim2SF_is_nan.
  rewrite sub_spec, (is_nan_Prim2SF x H). reflexivity.
Qed.

Lemma div_nan_l (x y : float) :
  PrimFloat.is_nan x = true -> PrimFloat.is_nan (x / y) = true.
Proof.
  intros H. apply Prim2SF_is_nan.
  rewrite div_spec, (is_nan_Prim2SF x H). reflexivity.
Qed.

Lemma SFcompare_refl (a : spec_float) :
  a <> S754_nan -> SFcompare a a = Some Eq.
Proof.
  destruct a as [s|s| |s m e]; intros H; try easy.
  - now destruct s.
  - cbn. rewrite Z.compare_refl, Pos.compare_cont_refl. now destruct s.
Qed.

Lemma SFcompare_antisym (a b : spec_float) :
  SFcompare b a = option_map CompOpp (SFcompare a b).
Proof.
  destruct a as [s|s| |s m e], b as [s'|s'| |s' m' e']; cbn;
    try reflexivity; try (now destruct s); try (now destruct s');
    try (now destruct s, s').
  rewrite (Z.compare_antisym e e').
  change (Pos.compare_cont Eq m' m) with (Pos.compare_cont (CompOpp Eq) m' m).
  rewrite <- (Pos.compare_cont_antisym m m' Eq).
  destruct s, s'; cbn; try reflexivity;
    destruct (e ?= e'); cbn; try reflexivity;
    destruct (Pos.compare_cont Eq m m'); reflexivity.
Qed.

Lemma SFcompare_Eq_same (a b : spec_float) :
  SFcompare a b = Some Eq -> sf_same a b.
Proof.
  destruct a as [s|s| |s m e], b as [s'|s'| |s' m' e']; cbn; intros H;
    try discriminate; try (destruct s; discriminate);
    try (destruct s'; discriminate).
  - split; [discriminate|]. right. eauto.
  - split; [discriminate|]. left. destruct s, s'; congruence.
  - split; [discriminate|]. left.
    assert (e = e' /\ m = m') as [-> ->]; [|destruct s, s'; congruence].
    destruct s, s'; try discriminate;
      destruct (e ?= e') eqn:E; try discriminate;
      apply Z.compare_eq in E; subst; split; trivial;
      injection H as H.
    + apply Pos.compare_eq. unfold Pos.compare.
      now destruct (Pos.compare_cont Eq m m').
    + now apply Pos.compare_eq.
Qed.

Lemma SFcompare_same_r (a b c : spec_float) :
  sf_same a c -> SFcompare b c = SFcompare b a.
Proof.
  intros [_ [-> | (s & s' & -> & ->)]]; [reflexivity|].
  now destruct b.
Qed.

(** [lo == hi] and [lo <= v <= hi] leave [v] no room. *)
Lemma SF_squeeze (a b c : spec_float) :
  SFeqb a c = true -> SFleb a b = true -> SFleb b c = true ->
  sf_same a b /\ sf_same b c /\ sf_same a c.
Proof.
  unfold SFeqb, SFleb. intros Hac Hab Hbc.
  assert (Sac : sf_same a c).
  { apply SFcompare_Eq_same. now destruct (SFcompare a c) as [[]|]. }
  rewrite (SFcompare_same_r a b c Sac), (SFcompare_antisym a b) in Hbc.
  assert (Eab : SFcompare a b = Some Eq).
  { destruct (SFcompare a b) as [[]|]; cbn in *; congruence. }
  repeat split; try (apply SFcompare_Eq_same; assumption);
    try (destruct Sac; assumption).
  - intros ->. destruct a; discriminate.
  - apply SFcompare_Eq_same in Eab. destruct Eab as [Hn [<- | (s & s' & -> & ->)]].
    + destruct Sac as [_ H]. exact H.
    + destruct Sac as [_ [<- | (t & t' & _ & ->)]]; right; eauto.
Qed.

Lemma SFsub_same (a b : spec_float) :
  sf_same a b -> zero_or_nan (SF64sub b a) = true.
Proof.
  intros [Hn [<- | (s & s' & -> & ->)]].
  - destruct a as [s|s| |s m e]; try easy.
    + now destruct s.
    + now destruct s.
    + unfold SF64sub, SFsub. rewrite Z.sub_diag. reflexivity.
  - now destruct s, s'.
Qed.

Lemma SFmul_zero_or_nan_l (a b : spec_float) :
  zero_or_nan a = true -> zero_or_nan (SF64mul a b) = true.
Proof. destruct a, b; now cbn. Qed.

Lemma SFmul_zero_or_nan_r (a b : spec_float) :
  zero_or_nan b = true -> zero_or_nan (SF64mul a b) = true.
Proof. destruct a, b; now cbn. Qed.

Lemma SFadd_zero_or_nan (a b : spec_float) :
  zero_or_nan a = true -> zero_or_nan b = true ->
  zero_or_nan (SF64add a b) = true.
Proof.
  destruct a as [s| | |], b as [s'| | |]; cbn; try easy. now destruct s, s'.
Qed.

Lemma SFdiv_zero_or_nan (a b : spec_float) :
  zero_or_nan a = true -> zero_or_nan b = true -> SF64div a b = S754_nan.
Proof. destruct a, b; now cbn. Qed.

Lemma mul_zero_or_nan_l (a b : float) :
  f_zero_or_nan a = true -> f_zero_or_nan (a * b) = true.
Proof. unfold f_zero_or_nan. rewrite mul_spec. apply SFmul_zero_or_nan_l. Qed.

Lemma mul_zero_or_nan_r (a b : float) :
  f_zero_or_nan b = true -> f_zero_or_nan (a * b) = true.
Proof. unfold f_zero_or_nan. rewrite mul_spec. apply SFmul_zero_or_nan_r. Qed.

Lemma add_zero_or_nan (a b : float) :
  f_zero_or_nan a = true -> f_zero_or_nan b = true ->
  f_zero_or_nan (a + b) = true.
Proof. unfold f_zero_or_nan. rewrite add_spec. apply SFadd_zero_or_nan. Qed.

Lemma div_zero_or_nan (a b : float) :
  f_zero_or_nan a = true -> f_zero_or_nan b = true ->
  PrimFloat.is_nan (a / b) = true.
Proof.
  unfold f_zero_or_nan. intros Ha Hb. apply Prim2SF_is_nan.
  rewrite div_spec. now apply SFdiv_zero_or_nan.
Qed.

(** On a degenerate axis ([lo == hi]) every difference the interpolation
    forms along it is a zero or NaN. *)
Lemma degenerate_axis (lo v hi : float) :
  (lo =? hi)%float = true -> (lo <=? v)%float = true -> (v <=? hi)%float = true ->
  f_zero_or_nan (hi - v) = true /\ f_zero_or_nan (v - lo) = true /\
  f_zero_or_nan (hi - lo) = true.
Proof.
  rewrite FloatAxioms.eqb_spec, !leb_spec. intros H1 H2 H3.
  destruct (SF_squeeze _ _ _ H1 H2 H3) as (Sab & Sbc & Sac).
  unfold f_zero_or_nan. rewrite !sub_spec.
  repeat split; now apply SFsub_same.
Qed.

(** A float that compares [<=] with anything is equal to itself. *)
Lemma leb_eqb_refl_l (a b : float) :
  (a <=? b)%float = true -> (a =? a)%float = true.
Proof.
  rewrite leb_spec, FloatAxioms.eqb_spec. unfold SFleb, SFeqb. intros H.
  rewrite SFcompare_refl; [reflexivity|].
  intros E. rewrite E in H. discriminate.
Qed.

Lemma leb_eqb_refl_r (a b : float) :
  (a <=? b)%float = true -> (b =? b)%float = true.
Proof.
  rewrite leb_spec, FloatAxioms.eqb_spec. unfold SFleb, SFeqb. intros H.
  rewrite SFcompare_refl; [reflexivity|].
  intros E. rewrite E in H. destruct (Prim2SF a); discriminate.
Qed.

(** ** extract_parameter *)

Lemma extract_parameter_getitem {A : Type} (l : list A) (i : Z) :
  extract_parameter l i = py_getitem l i.
Proof. unfold extract_parameter. now destruct (py_getitem l i). Qed.

Lemma nth_error_in_range {A : Type} (l : list A) (k : Z) :
  0 <= k < Z.of_nat (List.length l) ->
  exists a, nth_error l (Z.to_nat k) = Some a.
Proof.
  intros Hk.
  destruct (nth_error l (Z.to_nat k)) as [a|] eqn:E; [now exists a|].
  apply nth_error_None in E. lia.
Qed.

Lemma py_getitem_front {A : Type} (l : list A) (i : Z) :
  0 <= i < Z.of_nat (List.length l) ->
  exists a, nth_error l (Z.to_nat i) = Some a /\ py_getitem l i = Return a.
Proof.
  intros Hi. destruct (nth_error_in_range l i Hi) as [a Ha].
  exists a. split; [exact Ha|].
  unfold py_getitem.
  replace (i <? 0) with false by (symmetry; apply Z.ltb_ge; lia).
  replace (0 <=? i) with true by (symmetry; apply Z.leb_le; lia).
  replace (i <? Z.of_nat (List.length l)) with true
    by (symmetry; apply Z.ltb_lt; lia).
  cbn. now rewrite Ha.
Qed.

Lemma py_getitem_past_end {A : Type} (l : list A) (i : Z) :
  Z.of_nat (List.length l) <= i -> i < 2 ^ 63 ->
  py_getitem l i = Raise IndexError.
Proof.
  intros Hi Hsmall. unfold py_getitem.
  replace (i <? 0) with false by (symmetry; apply Z.ltb_ge; lia).
  replace (i <? Z.of_nat (List.length l)) with false
    by (symmetry; apply Z.ltb_ge; lia).
  replace (2 ^ 63 <=? i) with false by (symmetry; apply Z.leb_gt; lia).
  now rewrite andb_false_r.
Qed.

(** An index NumPy reads as an unsigned 64-bit scalar. *)
Lemma py_getitem_uint64 {A : Type} (l : list A) (i : Z) :
  Z.of_nat (List.length l) <= i -> 2 ^ 63 <= i < 2 ^ 64 ->
  py_getitem l i
  = Raise (OverflowError "Python int too large to convert to C long").
Proof.
  intros Hi Hbig. unfold py_getitem.
  replace (i <? 0) with false by (symmetry; apply Z.ltb_ge; lia).
  replace (i <? Z.of_nat (List.length l)) with false
    by (symmetry; apply Z.ltb_ge; lia).
  replace (2 ^ 63 <=? i) with true by (symmetry; apply Z.leb_le; lia).
  replace (i <? 2 ^ 64) with true by (symmetry; apply Z.ltb_lt; lia).
  now rewrite andb_false_r.
Qed.

(** Past the end, whatever the index, the read raises. *)
Lemma py_getitem_past_end_raises {A : Type} (l : list A) (i : Z) :
  Z.of_nat (List.length l) <= i -> raises (py_getitem l i) = true.
Proof.
  intros Hi. unfold py_getitem.
  replace (i <? 0) with false by (symmetry; apply Z.ltb_ge; lia).
  replace (i <? Z.of_nat (List.length l)) with false
    by (symmetry; apply Z.ltb_ge; lia).
  rewrite andb_false_r. now destruct ((2 ^ 63 <=? i) && (i <? 2 ^ 64)).
Qed.

Lemma py_getitem_back {A : Type} (l : list A) (i : Z) :
  - Z.of_nat (List.length l) <= i < 0 ->
  exists a, nth_error l (Z.to_nat (Z.of_nat (List.length l) + i)) = Some a /\
            py_getitem l i = Return a.
Proof.
  intros Hi.
  destruct (nth_error_in_range l (Z.of_nat (List.length l) + i)) as [a Ha]; [lia|].
  exists a. split; [exact Ha|].
  unfold py_getitem.
  replace (i <? 0) with true by (symmetry; apply Z.ltb_lt; lia).
  replace (0 <=? i + Z.of_nat (List.length l)) with true
    by (symmetry; apply Z.leb_le; lia).
  replace (i + Z.of_nat (List.length l) <? Z.of_nat (List.length l)) with true
    by (symmetry; apply Z.ltb_lt; lia).
  cbn. rewrite Z.add_comm. now rewrite Ha.
Qed.

(** Below [-n] the index is out of range too. *)
Lemma py_getitem_before_start {A : Type} (l : list A) (i : Z) :
  i < - Z.of_nat (List.length l) -> py_getitem l i = Raise IndexError.
Proof.
  intros Hi. unfold py_getitem.
  replace (i <? 0) with true by (symmetry; apply Z.ltb_lt; lia).
  replace (0 <=? i + Z.of_nat (List.length l)) with false
    by (symmetry; apply Z.leb_gt; lia).
  replace (2 ^ 63 <=? i) with false by (symmetry; apply Z.leb_gt; lia).
  reflexivity.
Qed.

(** The eight reads of the unit test. *)
Example test_extract_parameters :
  map (extract_parameter test_in_array) [0; 1; 2; 3; 4; 5; 6; 7]
  = map Return test_in_array.
Proof. reflexivity. Qed.

(** An index of 2^63 on the test array: the read raises [OverflowError], not
    [IndexError]. *)
Lemma extract_parameter_uint64_index :
  (exists msg, extract_parameter test_in_array (2 ^ 63) = Raise (OverflowError msg)) /\
  extract_parameter test_in_array (2 ^ 63) <> Raise IndexError.
Proof.
  split; [eexists; reflexivity | discriminate].
Qed.

(** C9, as the source has it.  For every array and every index,
    [extract_parameter array index] returns the element at that 0-based index
    when [0 <= index < length], and raises when [index >= length]:
    [IndexError] (the specification's IndexOutOfRange) for an index below
    2^63, [OverflowError] for an index from 2^63 to 2^64 - 1.  In particular
    index 3 of the test array is 15 and indexing the test array at its own
    length raises [IndexError]. *)
Theorem extract_parameter_bounds :
  forall (A : Type) (in_array : list A) (index : Z),
    (0 <= index < Z.of_nat (List.length in_array) ->
     exists a, nth_error in_array (Z.to_nat index) = Some a /\
               extract_parameter in_array index = Return a) /\
    (Z.of_nat (List.length in_array) <= index ->
     raises (extract_parameter in_array index) = true) /\
    (Z.of_nat (List.length in_array) <= index < 2 ^ 63 ->
     extract_parameter in_array index = Raise IndexError) /\
    (Z.of_nat (List.length in_array) <= index -> 2 ^ 63 <= index < 2 ^ 64 ->
     exists msg, extract_parameter in_array index = Raise (OverflowError msg)) /\
    extract_parameter test_in_array 3 = Return 15 /\
    extract_parameter test_in_array (Z.of_nat (List.length test_in_array))
    = Raise IndexError.
Proof.
  intros A l i. rewrite !extract_parameter_getitem.
  split; [apply py_getitem_front|].
  split; [apply py_getitem_past_end_raises|].
  split; [intros [H1 H2]; now apply py_getitem_past_end|].
  split; [|split; reflexivity].
  intros H1 H2. eexists. now apply py_getitem_uint64.
Qed.

Lemma extract_parameter_bounds_witness :
  (exists a, nth_error test_in_array (Z.to_nat 5) = Some a /\
             extract_parameter test_in_array 5 = Return a) /\
  extract_parameter test_in_array 8 = Raise IndexError /\
  (exists msg,
      extract_parameter test_in_array (2 ^ 63 + 1) = Raise (OverflowError msg)).
Proof.
  destruct (extract_parameter_bounds Z test_in_array 5) as [Hin _].
  destruct (extract_parameter_bounds Z test_in_array 8) as (_ & _ & Hout & _).
  destruct (extract_parameter_bounds Z test_in_array (2 ^ 63 + 1))
    as (_ & _ & _ & Hbig & _).
  split; [apply Hin; simpl; lia|].
  split; [apply Hout; simpl; lia | apply Hbig; simpl; lia].
Defined.

(** C10. For every non-empty array of length n and every negative index i
    with [-n <= i < 0], [extract_parameter array i] does not fail: it returns
    the element at position [n + i], counting from the end. *)
Theorem extract_parameter_negative_index :
  forall (A : Type) (in_array : list A) (index : Z),
    in_array <> [] ->
    - Z.of_nat (List.length in_array) <= index < 0 ->
    exists a,
      nth_error in_array
        (Z.to_nat (Z.of_nat (List.length in_array) + index)) = Some a /\
      extract_parameter in_array index = Return a.
Proof.
  intros A l i _ Hi. rewrite extract_parameter_getitem.
  now apply py_getitem_back.
Qed.

Lemma extract_parameter_negative_index_witness :
  exists a,
    nth_error test_in_array
      (Z.to_nat (Z.of_nat (List.length test_in_array) + (-1))) = Some a /\
    extract_parameter test_in_array (-1) = Return a.
Proof.
  apply (extract_parameter_negative_index Z test_in_array (-1)).
  - discriminate.
  - simpl. lia.
Defined.

(** ** ntp_to_unix_time *)

(** The two epochs are 25567 days apart. *)
Lemma epoch_days : date_sub SYSTEM_EPOCH NTP_EPOCH = 25567.
Proof. reflexivity. Qed.

Lemma NTP_DELTA_value : NTP_DELTA = 2208988800%float.
Proof. vm_compute. reflexivity. Qed.

(** The value of the docstring: binary64 gives 1365803237.9580002. *)
Example ntp_to_unix_time_docstring :
  ntp_to_unix_time 3574792037.958 = 1365803237.9580002%float.
Proof. vm_compute. reflexivity. Qed.

(** The three time stamps of the unit test, each within 1e-6 of its check
    value. *)
Example test_ntp_to_unix_time :
  forallb (fun p : float * float =>
             (abs (fst p - snd p) <=? 1e-6)%float)
          (combine
             (ntp_to_unix_time_array
                [3176736750.7358608; 3359763506.2082224; 3575049755.4380851]%float)
             [967747950.735861; 1150774706.2082224; 1366060955.438085]%float)
  = true.
Proof. vm_compute. reflexivity. Qed.

(** C8. For every input time stamp t, [ntp_to_unix_time t] is t minus the
    constant 2208988800.0, the seconds between 1900-01-01 and 1970-01-01; in
    particular the exact value of [ntp_to_unix_time 3574792037.958] lies
    within 1e-6 of 1365803237.958. *)
Theorem ntp_to_unix_time_offset :
  forall t : float,
    ntp_to_unix_time t = (t - 2208988800)%float /\
    (Qabs (Q_of_float (ntp_to_unix_time 3574792037.958) - (1365803237958 # 1000))
     <= 1 # 1000000)%Q.
Proof.
  intros t. split.
  - unfold ntp_to_unix_time. now rewrite NTP_DELTA_value.
  - vm_compute. discriminate.
Qed.

(** ** The result monad *)

Lemma mapM_raises {A B : Type} (f : A -> result B) (l : list A) :
  Exists (fun a => raises (f a) = true) l -> raises (mapM f l) = true.
Proof.
  induction 1 as [a l Ha | a l _ IH]; cbn.
  - now destruct (f a).
  - destruct (f a); [|reflexivity]. cbn.
    now destruct (mapM f l).
Qed.

Lemma mapM_returns {A B : Type} (f : A -> result B) (l : list A) :
  Forall (fun a => raises (f a) = false) l ->
  exists out, mapM f l = Return out /\ Forall2 (fun a b => f a = Return b) l out.
Proof.
  induction 1 as [| a l Ha _ (out & E & F)]; cbn.
  - exists []. split; [reflexivity | constructor].
  - destruct (f a) as [b|] eqn:Ea; [|discriminate].
    exists (b :: out). cbn. rewrite E. split; [reflexivity|].
    constructor; assumption.
Qed.

(** ** The depth block *)

(** [0 & zflag] is 0 whatever the flag, so the test [... == -1] never holds
    and the block only converts metres to kilometres. *)
Lemma depth_km_unflipped (z : float) (zflag : Z) :
  depth_km z zflag = (z / 1000)%float.
Proof.
  unfold depth_km. rewrite Z.land_0_l. cbn. now rewrite andb_false_r.
Qed.

(** The source and the specification agree except where the specification
    flips the sign. *)
Lemma depth_km_agrees_off_flip (z : float) (zflag : Z) :
  ((0 <? z / 1000)%float && (zflag =? -1)) = false ->
  depth_km z zflag = spec_depth_km z zflag.
Proof.
  intros H. rewrite depth_km_unflipped. unfold spec_depth_km. now rewrite H.
Qed.

Lemma depth_km_above_sea_level (z : float) :
  depth_km z 1 = (z / 1000)%float /\ spec_depth_km z 1 = (z / 1000)%float.
Proof.
  split; [apply depth_km_unflipped|].
  unfold spec_depth_km. cbn. now rewrite andb_false_r.
Qed.

Lemma depth_km_zero (zflag : Z) :
  depth_km 0 zflag = 0%float /\ spec_depth_km 0 zflag = 0%float.
Proof. split; [now rewrite depth_km_unflipped | reflexivity]. Qed.

(** What the model is asked, for any model: the depth is [z / 1000]. *)
Lemma wmm_declination_remod_depth
  (wmm_t : Type) (declination : wmm_t -> float -> float -> float -> date -> float)
  (lat lon ntp_timestamp : float) (wmm : wmm_t) (z : float) (zflag : Z) :
  wmm_declination_remod wmm_t declination lat lon ntp_timestamp wmm z zflag
  = (dates <- utcfromtimestamp_date (ntp_timestamp - 2208988800)%float ;;
     Return (declination wmm lat lon (z / 1000)%float dates)).
Proof. unfold wmm_declination_remod. now rewrite depth_km_unflipped. Qed.

Lemma wmm_declination_depth
  (resource_filename : string -> string -> result string)
  (wmm_t : Type) (WMM : option string -> result wmm_t)
  (declination : wmm_t -> float -> float -> float -> date -> float)
  (lat lon ntp_timestamp z : float) (zflag : Z) :
  wmm_declination resource_filename wmm_t WMM declination
                  lat lon ntp_timestamp z zflag
  = (dates <- utcfromtimestamp_date (ntp_timestamp - 2208988800)%float ;;
     wmm_model <- snd (set_wmm_model resource_filename 2010) ;;
     wmm <- WMM wmm_model ;;
     Return (declination wmm lat lon (z / 1000)%float dates)).
Proof. unfold wmm_declination. now rewrite depth_km_unflipped. Qed.

(** C1. With the flag BELOW_SEA_LEVEL ([zflag = -1]) and a positive depth of
    1000 m the model should be asked at -1 km, as the logical conjunction
    gives ([spec_depth_km]); the source asks it at +1 km: the model, whatever
    it is, receives the unflipped depth, from [wmm_declination_remod] and from
    [wmm_declination] alike. *)
Theorem depth_sign_not_flipped :
  forall (wmm_t : Type)
         (declination : wmm_t -> float -> float -> float -> date -> float)
         (wmm : wmm_t) (lat lon : float),
    spec_depth_km 1000 (-1) = (-1)%float /\
    depth_km 1000 (-1) = 1%float /\
    wmm_declination_remod wmm_t declination
      lat lon 3575053740.7382507 wmm 1000 (-1)
    = Return (declination wmm lat lon 1%float (mkdate 2013 4 15)) /\
    wmm_declination provider_all wmm_t (fun _ => Return wmm) declination
      lat lon 3575053740.7382507 1000 (-1)
    = Return (declination wmm lat lon 1%float (mkdate 2013 4 15)).
Proof.
  intros. repeat split; vm_compute; reflexivity.
Qed.

(** ** set_wmm_model *)

Lemma cof_file_name (year : Z) :
  py_format "WMM%4d.COF" [VInt year]
  = Return ("WMM" ++ pad_left 4 (py_str (VInt year)) ++ ".COF")%string.
Proof. reflexivity. Qed.

Example cof_file_2010 : py_format "WMM%4d.COF" [VInt 2010] = Return "WMM2010.COF"%string.
Proof. reflexivity. Qed.

(** The handler's message has two conversion specifiers and one operand. *)
Lemma handler_message_fails (e : string) :
  py_format "Error Type %s: Unable to find the WMM%4d.COF Coefficients file"
            [VStr e]
  = Raise (TypeError "not enough arguments for format string").
Proof. reflexivity. Qed.

Lemma set_wmm_model_found
  (resource_filename : string -> string -> result string) (year : Z) (path : string) :
  resource_filename __name__
    ("WMM" ++ pad_left 4 (py_str (VInt year)) ++ ".COF")%string = Return path ->
  set_wmm_model resource_filename year = ([], Return (Some path)).
Proof. intros H. unfold set_wmm_model. rewrite cof_file_name. now rewrite H. Qed.

Lemma set_wmm_model_not_found
  (resource_filename : string -> string -> result string) (year : Z) (e : string) :
  resource_filename __name__
    ("WMM" ++ pad_left 4 (py_str (VInt year)) ++ ".COF")%string
  = Raise (ResolutionError e) ->
  set_wmm_model resource_filename year
  = ([], Raise (TypeError "not enough arguments for format string")).
Proof.
  intros H. unfold set_wmm_model. rewrite cof_file_name, H.
  now rewrite handler_message_fails.
Qed.

(** Nothing is ever printed, and [None] is never returned: the handler fails
    while it builds its message. *)
Lemma set_wmm_model_silent
  (resource_filename : string -> string -> result string) (year : Z) :
  fst (set_wmm_model resource_filename year) = [] /\
  snd (set_wmm_model resource_filename year) <> Return None.
Proof.
  unfold set_wmm_model. rewrite cof_file_name.
  destruct (resource_filename _ _) as [p|[ | | | |e| ]];
    try rewrite handler_message_fails;
    (split; [reflexivity | discriminate]).
Qed.

(** C3. When the coefficient resource of a year is absent from the package,
    [set_wmm_model] should fail and hand the caller a model-not-found error,
    as its docstring says; the source never looks for the file: the provider
    only joins the names, so the call returns the path of a file that does
    not exist, prints nothing and raises nothing. *)
Theorem set_wmm_model_absent_resource :
  forall (pkg : package) (year : Z),
    ~ In ("WMM" ++ pad_left 4 (py_str (VInt year)) ++ ".COF")%string
         (resources pkg) ->
    set_wmm_model (default_resource_filename pkg) year
    = ([], Return (Some (module_path pkg ++ "/"
                         ++ "WMM" ++ pad_left 4 (py_str (VInt year)) ++ ".COF")%string)).
Proof.
  intros pkg year _. now apply set_wmm_model_found.
Qed.

Lemma set_wmm_model_absent_resource_witness :
  ~ In "WMM2015.COF"%string (resources ion_functions_data) /\
  set_wmm_model (default_resource_filename ion_functions_data) 2015
  = ([], Return (Some "ion_functions/data/WMM2015.COF"%string)).
Proof.
  assert (H : ~ In ("WMM" ++ pad_left 4 (py_str (VInt 2015)) ++ ".COF")%string
                   (resources ion_functions_data)).
  { simpl. intros [H | []]. discriminate H. }
  split; [exact H|].
  exact (set_wmm_model_absent_resource ion_functions_data 2015 H).
Defined.

(** ** The batched evaluation *)

Lemma add_nan_l (x y : float) :
  PrimFloat.is_nan x = true -> PrimFloat.is_nan (x + y) = true.
Proof.
  intros H. apply Prim2SF_is_nan.
  rewrite add_spec, (is_nan_Prim2SF x H). reflexivity.
Qed.

Lemma add_nan_r (x y : float) :
  PrimFloat.is_nan y = true -> PrimFloat.is_nan (x + y) = true.
Proof.
  intros H. apply Prim2SF_is_nan.
  rewrite add_spec, (is_nan_Prim2SF y H). now destruct (Prim2SF x).
Qed.

(** The stand-in model answers NaN as soon as an argument is NaN. *)
Lemma sample_declination_nan (w : unit) (lat lon z : float) (d : date) :
  PrimFloat.is_nan lat || PrimFloat.is_nan lon || PrimFloat.is_nan z = true ->
  PrimFloat.is_nan (sample_declination w lat lon z d) = true.
Proof.
  unfold sample_declination. intros H.
  apply orb_true_iff in H as [H | H]; [apply orb_true_iff in H as [H | H]|].
  - now apply add_nan_l, add_nan_l.
  - now apply add_nan_l, add_nan_r.
  - now apply add_nan_r.
Qed.

(** A NaN time stamp has no calendar date. *)
Lemma utcfromtimestamp_date_nan (t : float) :
  PrimFloat.is_nan t = true ->
  utcfromtimestamp_date t
  = Raise (ValueError "Invalid value NaN (not a number)").
Proof. intros H. unfold utcfromtimestamp_date. now rewrite H. Qed.

Lemma wmm_declination_remod_nan_timestamp
  (wmm_t : Type) (declination : wmm_t -> float -> float -> float -> date -> float)
  (lat lon ntp_timestamp : float) (wmm : wmm_t) (z : float) (zflag : Z) :
  PrimFloat.is_nan ntp_timestamp = true ->
  wmm_declination_remod wmm_t declination lat lon ntp_timestamp wmm z zflag
  = Raise (ValueError "Invalid value NaN (not a number)").
Proof.
  intros H. unfold wmm_declination_remod.
  now rewrite (utcfromtimestamp_date_nan _ (sub_nan_l _ _ H)).
Qed.

Lemma broadcast_shape_equal (n : nat) : broadcast_shape [n; n; n; n] = Some n.
Proof.
  unfold broadcast_shape, broadcast_len. cbn [fold_left].
  destruct (n =? 1)%nat eqn:E.
  - apply Nat.eqb_eq in E. now subst.
  - cbn [Nat.eqb]. rewrite Nat.eqb_refl, E. cbn iota.
    rewrite Nat.eqb_refl, E. cbn iota.
    now rewrite Nat.eqb_refl, E.
Qed.

Lemma broadcast_to_same {A : Type} (n : nat) (l : list A) :
  List.length l = n -> broadcast_to n l = l.
Proof. intros <-. destruct l as [|a [|b l]]; reflexivity. Qed.

(** Arrays of one length are taken as they are, index by index. *)
Lemma vectorize_equal_lengths
  (wmm_t : Type) (declination : wmm_t -> float -> float -> float -> date -> float)
  (lat lon ntp_timestamp : list float) (wmm : wmm_t) (z : list float) (zflag : Z) :
  List.length lat = List.length ntp_timestamp ->
  List.length lon = List.length ntp_timestamp ->
  List.length z = List.length ntp_timestamp ->
  ntp_timestamp <> [] ->
  vectorize_wmm_declination_remod wmm_t declination
    lat lon ntp_timestamp wmm z zflag
  = mapM (fun a : float * float * float * float =>
            let '(la, lo, t, zz) := a in
            wmm_declination_remod wmm_t declination la lo t wmm zz zflag)
         (observations lat lon ntp_timestamp z).
Proof.
  intros Hlat Hlon Hz Hne. unfold vectorize_wmm_declination_remod, observations.
  rewrite Hlat, Hlon, Hz, broadcast_shape_equal.
  rewrite !broadcast_to_same by (assumption || reflexivity).
  destruct lat as [|la0 lat], lon as [|lo0 lon], ntp_timestamp as [|t0 ts],
           z as [|z0 z]; try discriminate; try congruence.
  cbn [combine mapM]. cbv beta iota.
  destruct (wmm_declination_remod wmm_t declination la0 lo0 t0 wmm z0 zflag);
    reflexivity.
Qed.

Lemma observations_Exists (P : float -> Prop) (lat lon ts z : list float) :
  List.length lat = List.length ts ->
  List.length lon = List.length ts ->
  List.length z = List.length ts ->
  Exists P ts ->
  Exists (fun o : float * float * float * float => P (snd (fst o)))
         (observations lat lon ts z).
Proof.
  intros Hlat Hlon Hz H. revert lat lon z Hlat Hlon Hz.
  induction H as [t ts Ht | t ts _ IH];
    intros [|la lat] [|lo lon] [|zz z]; cbn; try discriminate; intros.
  - now left.
  - right. apply IH; congruence.
Qed.

Lemma observations_Forall (P : float -> Prop) (lat lon ts z : list float) :
  Forall P ts ->
  Forall (fun o : float * float * float * float => P (snd (fst o)))
         (observations lat lon ts z).
Proof.
  intros H. revert lat lon z.
  induction H as [| t ts Ht _ IH];
    intros [|la lat] [|lo lon] [|zz z]; cbn; try constructor; trivial.
  apply IH.
Qed.

(** A batch with a NaN time stamp in second place: the whole call raises and
    the first element's declination is lost with it. *)
Lemma magnetic_declination_nan_timestamp_raises :
  magnetic_declination provider_all unit sample_WMM sample_declination
    [45; 45]%float [-128; -128]%float [3575053740.7382507; nan]%float
    [0; 0]%float (-1)
  = Raise (ValueError "Invalid value NaN (not a number)") /\
  forall out : list float,
    magnetic_declination provider_all unit sample_WMM sample_declination
      [45; 45]%float [-128; -128]%float [3575053740.7382507; nan]%float
      [0; 0]%float (-1)
    <> Return out.
Proof.
  assert (E : magnetic_declination provider_all unit sample_WMM sample_declination
                [45; 45]%float [-128; -128]%float
                [3575053740.7382507; nan]%float [0; 0]%float (-1)
              = Raise (ValueError "Invalid value NaN (not a number)"))
    by (vm_compute; reflexivity).
  split; [exact E|]. intros out. rewrite E. discriminate.
Qed.

(** When every element either returns or raises one and the same exception,
    and some element raises it, the traversal raises it. *)
Lemma mapM_first_error {A B : Type} (f : A -> result B) (l : list A) (e : exn) :
  Forall (fun a => raises (f a) = false \/ f a = Raise e) l ->
  Exists (fun a => f a = Raise e) l ->
  mapM f l = Raise e.
Proof.
  induction 1 as [| a l Ha _ IH]; intros Hex; [inversion Hex|].
  cbn. destruct (f a) as [b|e'] eqn:Ea.
  - cbn. inversion Hex as [? ? H | ? ? H]; subst; [congruence|].
    now rewrite (IH H).
  - destruct Ha as [Ha | Ha]; [discriminate Ha | cbn; congruence].
Qed.

(** C2, as the source has it.  Take a batch of aligned, non-empty arrays and
    a resolved model.  A NaN time stamp anywhere makes the call raise,
    aborting the batch; the exception is the [ValueError] of the date
    conversion when every other time stamp has a calendar date.  When every
    time stamp has a calendar date no exception is raised and element i is
    the model's declination at (lat[i], lon[i], z[i]/1000, date[i]); so, for
    a model that answers NaN when an argument is NaN, element i is NaN
    whenever latitude[i], longitude[i] or depth[i] is NaN. *)
Theorem magnetic_declination_nan_policy :
  forall (resource_filename : string -> string -> result string)
         (wmm_t : Type) (WMM : option string -> result wmm_t)
         (declination : wmm_t -> float -> float -> float -> date -> float)
         (lat lon ntp_timestamp z : list float) (zflag : Z)
         (wmm_model : option string) (wmm : wmm_t),
    snd (set_wmm_model resource_filename 2010) = Return wmm_model ->
    WMM wmm_model = Return wmm ->
    List.length lat = List.length ntp_timestamp ->
    List.length lon = List.length ntp_timestamp ->
    List.length z = List.length ntp_timestamp ->
    ntp_timestamp <> [] ->
    (Exists (fun t => PrimFloat.is_nan t = true) ntp_timestamp ->
     raises (magnetic_declination resource_filename wmm_t WMM declination
               lat lon ntp_timestamp z zflag) = true) /\
    (Exists (fun t => PrimFloat.is_nan t = true) ntp_timestamp ->
     Forall (fun t => PrimFloat.is_nan t = true \/
                      raises (utcfromtimestamp_date (t - 2208988800)%float) = false)
            ntp_timestamp ->
     magnetic_declination resource_filename wmm_t WMM declination
       lat lon ntp_timestamp z zflag
     = Raise (ValueError "Invalid value NaN (not a number)")) /\
    (Forall (fun t => raises (utcfromtimestamp_date (t - 2208988800)%float) = false)
            ntp_timestamp ->
     exists out,
       magnetic_declination resource_filename wmm_t WMM declination
         lat lon ntp_timestamp z zflag = Return out /\
       Forall2
         (fun o m =>
            exists d,
              utcfromtimestamp_date (obs_time o - 2208988800)%float = Return d /\
              m = declination wmm (obs_lat o) (obs_lon o) (obs_z o / 1000)%float d)
         (observations lat lon ntp_timestamp z) out /\
       ((forall la lo zk d,
            PrimFloat.is_nan la || PrimFloat.is_nan lo || PrimFloat.is_nan zk = true ->
            PrimFloat.is_nan (declination wmm la lo zk d) = true) ->
        Forall2 (fun o m => obs_has_nan o = true -> PrimFloat.is_nan m = true)
                (observations lat lon ntp_timestamp z) out)).
Proof.
  intros provider wmm_t WMM declination lat lon ts z zflag wmm_model wmm
         Hmodel Hwmm Hlat Hlon Hz Hne.
  unfold magnetic_declination. rewrite Hmodel. cbn [bind]. rewrite Hwmm. cbn [bind].
  rewrite (vectorize_equal_lengths _ _ _ _ _ _ _ _ Hlat Hlon Hz Hne).
  set (f := fun a : float * float * float * float =>
              let '(la, lo, t, zz) := a in
              wmm_declination_remod wmm_t declination la lo t wmm zz zflag).
  assert (Fnan : forall o, PrimFloat.is_nan (snd (fst o)) = true ->
                           f o = Raise (ValueError "Invalid value NaN (not a number)")).
  { intros [[[la lo] t] zz] Ht. cbn in Ht. unfold f.
    now apply wmm_declination_remod_nan_timestamp. }
  assert (Fok : forall o,
             raises (utcfromtimestamp_date (snd (fst o) - 2208988800)%float) = false ->
             raises (f o) = false).
  { intros [[[la lo] t] zz] Ht. cbn in Ht. unfold f.
    rewrite wmm_declination_remod_depth.
    now destruct (utcfromtimestamp_date (t - 2208988800)%float). }
  split; [|split].
  - intros Hex.
    assert (R : raises (mapM f (observations lat lon ts z)) = true).
    { apply mapM_raises.
      eapply Exists_impl;
        [| exact (observations_Exists _ lat lon ts z Hlat Hlon Hz Hex)].
      intros o Ht. cbv beta in Ht. now rewrite (Fnan o Ht). }
    destruct (mapM f _); [discriminate R | reflexivity].
  - intros Hex Hall.
    rewrite (mapM_first_error f (observations lat lon ts z)
               (ValueError "Invalid value NaN (not a number)")); [reflexivity| |].
    + eapply Forall_impl; [| exact (observations_Forall _ lat lon ts z Hall)].
      intros o [Ht | Ht]; [right; now apply Fnan | left; now apply Fok].
    + eapply Exists_impl;
        [| exact (observations_Exists _ lat lon ts z Hlat Hlon Hz Hex)].
      intros o Ht. now apply Fnan.
  - intros Hall.
    destruct (mapM_returns f (observations lat lon ts z)) as (out & E & F).
    { eapply Forall_impl; [| exact (observations_Forall _ lat lon ts z Hall)].
      intros o Ht. now apply Fok. }
    exists out. rewrite E. split; [reflexivity|].
    assert (V : Forall2
                  (fun o m =>
                     exists d,
                       utcfromtimestamp_date (obs_time o - 2208988800)%float
                       = Return d /\
                       m = declination wmm (obs_lat o) (obs_lon o)
                                       (obs_z o / 1000)%float d)
                  (observations lat lon ts z) out).
    { eapply Forall2_impl; [| exact F].
      intros [[[la lo] t] zz] m Hm. unfold f in Hm.
      rewrite wmm_declination_remod_depth in Hm.
      unfold obs_lat, obs_lon, obs_time, obs_z. cbn [fst snd].
      destruct (utcfromtimestamp_date (t - 2208988800)%float) as [d|] eqn:Ed;
        [|discriminate Hm].
      injection Hm as <-. exists d. split; reflexivity. }
    split; [exact V|].
    intros Hnan. eapply Forall2_impl; [| exact V].
    intros o m (d & _ & ->) H. apply Hnan. unfold obs_has_nan in H.
    apply orb_true_iff in H as [H | H]; [now rewrite H|].
    rewrite (div_nan_l _ _ H). now rewrite orb_true_r.
Qed.

Lemma magnetic_declination_nan_policy_witness :
  magnetic_declination provider_all unit sample_WMM sample_declination
    [45; 45]%float [-128; -128]%float
    [3575053740.7382507; nan]%float [0; 1000]%float (-1)
  = Raise (ValueError "Invalid value NaN (not a number)") /\
  exists out,
    magnetic_declination provider_all unit sample_WMM sample_declination
      [nan; 45]%float [-128; -128]%float
      [3575053740.7382507; 3471292800]%float [0; nan]%float (-1) = Return out /\
    Forall2 (fun o m => obs_has_nan o = true -> PrimFloat.is_nan m = true)
            (observations [nan; 45]%float [-128; -128]%float
                          [3575053740.7382507; 3471292800]%float [0; nan]%float)
            out.
Proof.
  split.
  - apply (magnetic_declination_nan_policy
             provider_all unit sample_WMM sample_declination
             [45; 45]%float [-128; -128]%float
             [3575053740.7382507; nan]%float [0; 1000]%float (-1)
             (Some "ion_functions.data.generic_functions/WMM2010.COF"%string) tt);
      try reflexivity.
    + discriminate.
    + right. left. reflexivity.
    + constructor; [right; reflexivity|].
      constructor; [left; reflexivity | constructor].
  - destruct (magnetic_declination_nan_policy
                provider_all unit sample_WMM sample_declination
                [nan; 45]%float [-128; -128]%float
                [3575053740.7382507; 3471292800]%float [0; nan]%float (-1)
                (Some "ion_functions.data.generic_functions/WMM2010.COF"%string) tt)
      as (_ & _ & H); try reflexivity.
    + discriminate.
    + destruct H as (out & E & _ & N); [repeat constructor|].
      exists out. split; [exact E|].
      apply N. intros la lo zk d. apply sample_declination_nan.
Defined.

(** ** bilinear_interpolation *)

(** Four rows that pass both checks give the quotient, whatever the area. *)
Lemma bilinear_interpolation_checked
  (x y x1 y1 q11 x1' y2 q12 x2 y1' q21 x2' y2' q22 : float) :
  (x1 =? x1')%float = true -> (x2 =? x2')%float = true ->
  (y1 =? y1')%float = true -> (y2 =? y2')%float = true ->
  (x1 <=? x)%float = true -> (x <=? x2)%float = true ->
  (y1 <=? y)%float = true -> (y <=? y2)%float = true ->
  bilinear_interpolation x y
    [[x1; y1; q11]; [x1'; y2; q12]; [x2; y1'; q21]; [x2'; y2'; q22]]
  = Return (area_weighted x y x1 y1 x2 y2 q11 q12 q21 q22).
Proof.
  intros Ex1 Ex2 Ey1 Ey2 Lx1 Lx2 Ly1 Ly2.
  unfold bilinear_interpolation. cbn [mapM view_f8x3 bind].
  rewrite Ex1, Ex2, Ey1, Ey2, Lx1, Lx2, Ly1, Ly2. reflexivity.
Qed.

(** Corners given ordered by x, then by y, with the query point inside: the
    call returns the area-weighted average. *)
Lemma bilinear_interpolation_ordered
  (x y x1 y1 x2 y2 q11 q12 q21 q22 : float) :
  (x1 <=? x)%float = true -> (x <=? x2)%float = true ->
  (y1 <=? y)%float = true -> (y <=? y2)%float = true ->
  bilinear_interpolation x y
    [[x1; y1; q11]; [x1; y2; q12]; [x2; y1; q21]; [x2; y2; q22]]
  = Return (area_weighted x y x1 y1 x2 y2 q11 q12 q21 q22).
Proof.
  intros Lx1 Lx2 Ly1 Ly2.
  apply bilinear_interpolation_checked; trivial.
  - exact (leb_eqb_refl_l _ _ Lx1).
  - exact (leb_eqb_refl_r _ _ Lx2).
  - exact (leb_eqb_refl_l _ _ Ly1).
  - exact (leb_eqb_refl_r _ _ Ly2).
Qed.

(** The same four corners with the middle two exchanged (ordered by y, then
    by x, as the docstring lists them) never pass the rectangle check unless
    the rectangle is degenerate. *)
Lemma bilinear_interpolation_docstring_layout
  (x y x1 y1 x2 y2 q11 q12 q21 q22 : float) :
  (x1 =? x2)%float = false ->
  bilinear_interpolation x y
    [[x1; y1; q11]; [x2; y1; q21]; [x1; y2; q12]; [x2; y2; q22]]
  = Raise (ValueError "points do not form a rectangle").
Proof.
  intros H. unfold bilinear_interpolation. cbn [mapM view_f8x3 bind].
  now rewrite H.
Qed.

(** C4. The docstring promises that the four points may come in any order and
    that its own sample interpolates to 165.0 at (12, 5.5); the source
    unpacks the corners from the unsorted input, so that very sample is
    refused as not a rectangle, while the same corners ordered by x, then y,
    give 165.0. *)
Theorem bilinear_interpolation_docstring_sample :
  bilinear_interpolation 12 5.5 doc_points
  = Raise (ValueError "points do not form a rectangle") /\
  bilinear_interpolation 12 5.5 doc_points_sorted = Return 165%float.
Proof. split; vm_compute; reflexivity. Qed.

(** A rectangle of zero width, and one of zero height: the call returns NaN. *)
Lemma bilinear_interpolation_degenerate_returns_nan :
  bilinear_interpolation 10 5
    [[10; 4; 100]; [10; 6; 150]; [10; 4; 200]; [10; 6; 300]]%float = Return nan /\
  bilinear_interpolation 12 4
    [[10; 4; 100]; [10; 4; 150]; [20; 4; 200]; [20; 4; 300]]%float = Return nan /\
  PrimFloat.is_nan nan = true.
Proof. repeat split; vm_compute; reflexivity. Qed.

Lemma f_zero_or_nan_zero : f_zero_or_nan 0 = true.
Proof. vm_compute. reflexivity. Qed.

(** C5, as the source has it.  For four corners that pass the rectangle
    check and a query point that passes the bounds check, a degenerate
    rectangle (zero width or zero height) raises nothing: the division by the
    zero area is carried out and its result, NaN, is returned. *)
Theorem bilinear_interpolation_degenerate :
  forall x y x1 y1 q11 x1' y2 q12 x2 y1' q21 x2' y2' q22 : float,
    (x1 =? x1')%float = true -> (x2 =? x2')%float = true ->
    (y1 =? y1')%float = true -> (y2 =? y2')%float = true ->
    (x1 <=? x)%float = true -> (x <=? x2)%float = true ->
    (y1 <=? y)%float = true -> (y <=? y2)%float = true ->
    (x1 =? x2)%float = true \/ (y1 =? y2)%float = true ->
    exists v,
      bilinear_interpolation x y
        [[x1; y1; q11]; [x1'; y2; q12]; [x2; y1'; q21]; [x2'; y2'; q22]]
      = Return v /\
      PrimFloat.is_nan v = true.
Proof.
  intros x y x1 y1 q11 x1' y2 q12 x2 y1' q21 x2' y2' q22
         Ex1 Ex2 Ey1 Ey2 Lx1 Lx2 Ly1 Ly2 Hdeg.
  exists (area_weighted x y x1 y1 x2 y2 q11 q12 q21 q22).
  split; [now apply bilinear_interpolation_checked|].
  unfold area_weighted. apply div_zero_or_nan.
  - destruct Hdeg as [Hx | Hy].
    + destruct (degenerate_axis x1 x x2 Hx Lx1 Lx2) as (D2 & D1 & _).
      repeat apply add_zero_or_nan;
        apply mul_zero_or_nan_l, mul_zero_or_nan_r; assumption.
    + destruct (degenerate_axis y1 y y2 Hy Ly1 Ly2) as (D2 & D1 & _).
      repeat apply add_zero_or_nan; apply mul_zero_or_nan_r; assumption.
  - apply add_zero_or_nan; [|exact f_zero_or_nan_zero].
    destruct Hdeg as [Hx | Hy].
    + destruct (degenerate_axis x1 x x2 Hx Lx1 Lx2) as (_ & _ & D).
      now apply mul_zero_or_nan_l.
    + destruct (degenerate_axis y1 y y2 Hy Ly1 Ly2) as (_ & _ & D).
      now apply mul_zero_or_nan_r.
Qed.

Lemma bilinear_interpolation_degenerate_witness :
  exists v,
    bilinear_interpolation 10 5
      [[10; 4; 100]; [10; 6; 150]; [10; 4; 200]; [10; 6; 300]]%float = Return v /\
    PrimFloat.is_nan v = true.
Proof.
  apply (bilinear_interpolation_degenerate
           10 5 10 4 100 10 6 150 10 4 200 10 6 300);
    try reflexivity.
  left. reflexivity.
Defined.

(** ** magnetic_correction *)

Section Rotation.

Variable theta : R.

Lemma radians_opp : radians (- theta) = (- radians theta)%R.
Proof. unfold radians. ring. Qed.

(** Rotating by [theta] and then by [- theta] gives the pair back. *)
Lemma rotate_east_inverse (e n : R) :
  rotate_east (- theta) (rotate_east theta e n) (rotate_north theta e n) = e.
Proof.
  unfold rotate_east, rotate_north. rewrite radians_opp, cos_neg, sin_neg.
  pose proof (sin2_cos2 (radians theta)) as H. unfold Rsqr in H.
  set (c := cos (radians theta)) in *. set (s := sin (radians theta)) in *.
  replace e with (e * (s * s + c * c))%R at 3 by (rewrite H; ring).
  ring.
Qed.

Lemma rotate_north_inverse (e n : R) :
  rotate_north (- theta) (rotate_east theta e n) (rotate_north theta e n) = n.
Proof.
  unfold rotate_east, rotate_north. rewrite radians_opp, cos_neg, sin_neg.
  pose proof (sin2_cos2 (radians theta)) as H. unfold Rsqr in H.
  set (c := cos (radians theta)) in *. set (s := sin (radians theta)) in *.
  replace n with (n * (s * s + c * c))%R at 3 by (rewrite H; ring).
  ring.
Qed.

(** The rotation keeps the length of every pair: the matrix is orthogonal. *)
Lemma rotate_norm (e n : R) :
  (rotate_east theta e n * rotate_east theta e n
   + rotate_north theta e n * rotate_north theta e n
   = e * e + n * n)%R.
Proof.
  unfold rotate_east, rotate_north.
  pose proof (sin2_cos2 (radians theta)) as H. unfold Rsqr in H.
  set (c := cos (radians theta)) in *. set (s := sin (radians theta)) in *.
  replace (e * e + n * n)%R with ((e * e + n * n) * (s * s + c * c))%R
    by (rewrite H; ring).
  ring.
Qed.

End Rotation.

(** The east and north outputs for a scalar angle, pair by pair. *)
Lemma magnetic_correction_scalar (theta : R) (u v : list R) :
  List.length u = List.length v ->
  magnetic_correction (ThetaScalar theta) u v
  = Return
      (Cor1 (map (fun p : R * R => rotate_east theta (fst p) (snd p)) (combine u v)),
       Cor1 (map (fun p : R * R => rotate_north theta (fst p) (snd p)) (combine u v))).
Proof.
  intros Hlen. unfold magnetic_correction, np_array_uv.
  rewrite Hlen, Nat.eqb_refl. cbn [bind dot_uv fst snd].
  do 3 f_equal; apply map_ext; intros [e n]; unfold rotate_east, rotate_north;
    cbn [fst snd]; ring.
Qed.

Lemma rotated_lengths (theta : R) (u v : list R) :
  List.length
    (map (fun p : R * R => rotate_east theta (fst p) (snd p)) (combine u v))
  = List.length
      (map (fun p : R * R => rotate_north theta (fst p) (snd p)) (combine u v)).
Proof. now rewrite !length_map. Qed.

Lemma rotate_back_east (theta : R) (u v : list R) :
  List.length u = List.length v ->
  map (fun p : R * R => rotate_east (- theta) (fst p) (snd p))
      (combine
         (map (fun p : R * R => rotate_east theta (fst p) (snd p)) (combine u v))
         (map (fun p : R * R => rotate_north theta (fst p) (snd p)) (combine u v)))
  = u.
Proof.
  revert v. induction u as [|e u IH]; intros [|n v] Hlen; try discriminate.
  - reflexivity.
  - cbn. rewrite rotate_east_inverse. f_equal. apply IH.
    now injection Hlen.
Qed.

Lemma rotate_back_north (theta : R) (u v : list R) :
  List.length u = List.length v ->
  map (fun p : R * R => rotate_north (- theta) (fst p) (snd p))
      (combine
         (map (fun p : R * R => rotate_east theta (fst p) (snd p)) (combine u v))
         (map (fun p : R * R => rotate_north theta (fst p) (snd p)) (combine u v)))
  = v.
Proof.
  revert v. induction u as [|e u IH]; intros [|n v] Hlen; try discriminate.
  - reflexivity.
  - cbn. rewrite rotate_north_inverse. f_equal. apply IH.
    now injection Hlen.
Qed.

(** With an array of three angles aligned with three velocity pairs the
    product of [M] (2x2x3) and [[u, v]] (2x3) is not defined; with two
    angles it is, but each slice is a 2x2 array, not the rotated
    components. *)
Lemma magnetic_correction_array_theta :
  magnetic_correction (ThetaArray [0; 0; 0]%R) [1; 2; 3]%R [4; 5; 6]%R
  = Raise (ValueError "shapes not aligned") /\
  magnetic_correction (ThetaArray [0; 0]%R) [1; 2]%R [3; 4]%R
  <> Return (Cor1 (rotate_each rotate_east [0; 0]%R [1; 2]%R [3; 4]%R),
             Cor1 (rotate_each rotate_north [0; 0]%R [1; 2]%R [3; 4]%R)).
Proof.
  split; [reflexivity|].
  unfold magnetic_correction, np_array_uv. cbn [List.length Nat.eqb bind map dot_uv].
  discriminate.
Qed.

(** C6, as the source has it.  For every scalar theta in degrees and every
    aligned pair of velocity arrays, [magnetic_correction] returns, index by
    index, east' = east*cos(theta_rad) + north*sin(theta_rad) and
    north' = -east*sin(theta_rad) + north*cos(theta_rad), with theta_rad the
    angle in radians, the one angle applied to every pair. *)
Theorem magnetic_correction_rotation :
  forall (theta : R) (u v : list R),
    List.length u = List.length v ->
    magnetic_correction (ThetaScalar theta) u v
    = Return
        (Cor1 (map (fun p : R * R =>
                      (fst p * cos (theta * (PI / 180))
                       + snd p * sin (theta * (PI / 180)))%R) (combine u v)),
         Cor1 (map (fun p : R * R =>
                      (- fst p * sin (theta * (PI / 180))
                       + snd p * cos (theta * (PI / 180)))%R) (combine u v))).
Proof. intros theta u v Hlen. now rewrite magnetic_correction_scalar. Qed.

Lemma magnetic_correction_rotation_witness :
  magnetic_correction (ThetaScalar (169604 / 10000)%R)
    [(4413 / 10000)%R] [(1719 / 10000)%R]
  = Return
      (Cor1 [(4413 / 10000 * cos (169604 / 10000 * (PI / 180))
              + 1719 / 10000 * sin (169604 / 10000 * (PI / 180)))%R],
       Cor1 [(- (4413 / 10000) * sin (169604 / 10000 * (PI / 180))
              + 1719 / 10000 * cos (169604 / 10000 * (PI / 180)))%R]).
Proof.
  apply (magnetic_correction_rotation
           (169604 / 10000)%R [(4413 / 10000)%R] [(1719 / 10000)%R]).
  reflexivity.
Defined.

(** C7. The rotation is orthogonal: for every angle theta and all aligned
    velocity arrays (a single pair (e, n) among them), correcting with theta
    and then correcting the result with -theta gives the original components
    back, exactly, over the reals. *)
Theorem magnetic_correction_inverse :
  forall (theta : R) (u v : list R),
    List.length u = List.length v ->
    exists u' v' : list R,
      magnetic_correction (ThetaScalar theta) u v = Return (Cor1 u', Cor1 v') /\
      magnetic_correction (ThetaScalar (- theta)) u' v' = Return (Cor1 u, Cor1 v).
Proof.
  intros theta u v Hlen.
  exists (map (fun p : R * R => rotate_east theta (fst p) (snd p)) (combine u v)),
         (map (fun p : R * R => rotate_north theta (fst p) (snd p)) (combine u v)).
  split; [now apply magnetic_correction_scalar|].
  rewrite (magnetic_correction_scalar _ _ _ (rotated_lengths theta u v)).
  now rewrite rotate_back_east, rotate_back_north.
Qed.

Lemma magnetic_correction_inverse_witness :
  exists u' v' : list R,
    magnetic_correction (ThetaScalar (169604 / 10000)%R)
      [(4413 / 10000)%R] [(1719 / 10000)%R] = Return (Cor1 u', Cor1 v') /\
    magnetic_correction (ThetaScalar (- (169604 / 10000))%R) u' v'
    = Return (Cor1 [(4413 / 10000)%R], Cor1 [(1719 / 10000)%R]).
Proof.
  apply (magnetic_correction_inverse
           (169604 / 10000)%R [(4413 / 10000)%R] [(1719 / 10000)%R]).
  reflexivity.
Defined.

(* ================================================================== *)
(** * Part III.  Further properties of the module                      *)
(* ================================================================== *)

(** ** extract_parameter *)

(** X1. [extract_parameter] returns a value exactly for the indices from
    [-n] to [n - 1], n the length of the array.  Every other index, and every
    index of the empty array, raises: [IndexError] when the index lies
    between -2^63 and 2^63 - 1, [OverflowError] when it lies between 2^63 and
    2^64 - 1. *)
Theorem extract_parameter_returns_iff :
  forall (A : Type) (in_array : list A) (index : Z),
    (raises (extract_parameter in_array index) = false <->
     - Z.of_nat (List.length in_array) <= index < Z.of_nat (List.length in_array)) /\
    (raises (extract_parameter in_array index) = true ->
     - 2 ^ 63 <= index < 2 ^ 63 ->
     extract_parameter in_array index = Raise IndexError) /\
    (raises (extract_parameter in_array index) = true ->
     2 ^ 63 <= index < 2 ^ 64 ->
     exists msg, extract_parameter in_array index = Raise (OverflowError msg)).
Proof.
  intros A l i. rewrite extract_parameter_getitem.
  assert (In_range :
            - Z.of_nat (List.length l) <= i < Z.of_nat (List.length l) ->
            raises (py_getitem l i) = false).
  { intros [Hlo Hhi].
    destruct (Z_lt_le_dec i 0) as [Hneg | Hpos].
    - destruct (py_getitem_back l i) as (a & _ & ->); [lia | reflexivity].
    - destruct (py_getitem_front l i) as (a & _ & ->); [lia | reflexivity]. }
  split; [split; [|exact In_range] |split].
  - intros H.
    destruct (Z_lt_le_dec i (- Z.of_nat (List.length l))) as [Hlo | Hlo].
    + rewrite (py_getitem_before_start l i Hlo) in H. discriminate.
    + destruct (Z_lt_le_dec i (Z.of_nat (List.length l))) as [Hhi | Hhi]; [lia|].
      rewrite (py_getitem_past_end_raises l i Hhi) in H. discriminate.
  - intros H Hi.
    destruct (Z_lt_le_dec i (- Z.of_nat (List.length l))) as [Hlo | Hlo];
      [now apply py_getitem_before_start|].
    destruct (Z_lt_le_dec i (Z.of_nat (List.length l))) as [Hhi | Hhi].
    + rewrite In_range in H by lia. discriminate.
    + apply py_getitem_past_end; lia.
  - intros H Hi.
    destruct (Z_lt_le_dec i (Z.of_nat (List.length l))) as [Hhi | Hhi].
    + rewrite In_range in H by lia. discriminate.
    + eexists. now apply py_getitem_uint64.
Qed.

(** X2. An index counted from the end and the same position counted from the
    front read the same element: for [0 <= i < n],
    [extract_parameter array (i - n) = extract_parameter array i]. *)
Theorem extract_parameter_wraps :
  forall (A : Type) (in_array : list A) (index : Z),
    0 <= index < Z.of_nat (List.length in_array) ->
    extract_parameter in_array (index - Z.of_nat (List.length in_array))
    = extract_parameter in_array index.
Proof.
  intros A l i Hi. rewrite !extract_parameter_getitem.
  destruct (py_getitem_front l i Hi) as (a & Ha & ->).
  destruct (py_getitem_back l (i - Z.of_nat (List.length l))) as (b & Hb & ->);
    [lia|].
  replace (Z.of_nat (List.length l) + (i - Z.of_nat (List.length l))) with i
    in Hb by lia.
  congruence.
Qed.

Lemma extract_parameter_wraps_witness :
  extract_parameter test_in_array (3 - Z.of_nat (List.length test_in_array))
  = extract_parameter test_in_array 3.
Proof.
  apply (extract_parameter_wraps Z test_in_array 3). simpl. lia.
Defined.

(** ** bilinear_interpolation *)

Lemma SFcompare_nan_r (a : spec_float) : SFcompare a S754_nan = None.
Proof. now destruct a. Qed.

(** NaN compares false with everything, from either side. *)
Lemma nan_compares_false (a b : float) :
  PrimFloat.is_nan a = true ->
  (a =? b)%float = false /\ (b =? a)%float = false /\
  (a <=? b)%float = false /\ (b <=? a)%float = false.
Proof.
  intros H. rewrite !FloatAxioms.eqb_spec, !leb_spec.
  rewrite (is_nan_Prim2SF a H). unfold SFeqb, SFleb.
  rewrite SFcompare_nan_r. repeat split.
Qed.

(** [a < b] excludes [b <= a]. *)
Lemma ltb_not_leb (a b : float) :
  (a <? b)%float = true -> (b <=? a)%float = false.
Proof.
  rewrite ltb_spec, leb_spec. unfold SFltb, SFleb.
  rewrite (SFcompare_antisym (Prim2SF a) (Prim2SF b)).
  now destruct (SFcompare (Prim2SF a) (Prim2SF b)) as [[]|].
Qed.

(** X3. Corners given ordered by x, then by y -- (x1,y1), (x1,y2), (x2,y1),
    (x2,y2) -- and a query point with [x1 <= x <= x2] and [y1 <= y <= y2]:
    the call returns the area-weighted average of the four corner values. *)
Theorem bilinear_interpolation_sorted_corners :
  forall x y x1 y1 x2 y2 q11 q12 q21 q22 : float,
    (x1 <=? x)%float = true -> (x <=? x2)%float = true ->
    (y1 <=? y)%float = true -> (y <=? y2)%float = true ->
    bilinear_interpolation x y
      [[x1; y1; q11]; [x1; y2; q12]; [x2; y1; q21]; [x2; y2; q22]]
    = Return ((q11 * (x2 - x) * (y2 - y) +
               q21 * (x - x1) * (y2 - y) +
               q12 * (x2 - x) * (y - y1) +
               q22 * (x - x1) * (y - y1)) / ((x2 - x1) * (y2 - y1) + 0))%float.
Proof.
  intros. now apply bilinear_interpolation_ordered.
Qed.

Lemma bilinear_interpolation_sorted_corners_witness :
  bilinear_interpolation 12 5.5
    [[10; 4; 100]; [10; 6; 150]; [20; 4; 200]; [20; 6; 300]]%float
  = Return ((100 * (20 - 12) * (6 - 5.5) +
             200 * (12 - 10) * (6 - 5.5) +
             150 * (20 - 12) * (5.5 - 4) +
             300 * (12 - 10) * (5.5 - 4)) / ((20 - 10) * (6 - 4) + 0))%float.
Proof.
  apply (bilinear_interpolation_sorted_corners 12 5.5 10 4 20 6 100 150 200 300);
    reflexivity.
Defined.

(** X4. The same rectangle with its corners listed row by row -- (x1,y1),
    (x2,y1), (x1,y2), (x2,y2), the order of the docstring -- is refused as
    not a rectangle whenever [x1] and [x2] differ, wherever the query point
    lies. *)
Theorem bilinear_interpolation_row_order_refused :
  forall x y x1 y1 x2 y2 q11 q12 q21 q22 : float,
    (x1 =? x2)%float = false ->
    bilinear_interpolation x y
      [[x1; y1; q11]; [x2; y1; q21]; [x1; y2; q12]; [x2; y2; q22]]
    = Raise (ValueError "points do not form a rectangle").
Proof. intros. now apply bilinear_interpolation_docstring_layout. Qed.

Lemma bilinear_interpolation_row_order_refused_witness :
  bilinear_interpolation 15 5
    [[10; 4; 100]; [20; 4; 200]; [10; 6; 150]; [20; 6; 300]]%float
  = Raise (ValueError "points do not form a rectangle").
Proof.
  apply (bilinear_interpolation_row_order_refused 15 5 10 4 20 6 100 150 200 300).
  reflexivity.
Defined.

(** X5. When the four rows pass the rectangle check, a query point strictly
    outside the rectangle on any side raises
    ['(x, y) not within the rectangle']. *)
Theorem bilinear_interpolation_outside :
  forall x y x1 y1 q11 x1' y2 q12 x2 y1' q21 x2' y2' q22 : float,
    (x1 =? x1')%float = true -> (x2 =? x2')%float = true ->
    (y1 =? y1')%float = true -> (y2 =? y2')%float = true ->
    (x <? x1)%float = true \/ (x2 <? x)%float = true \/
    (y <? y1)%float = true \/ (y2 <? y)%float = true ->
    bilinear_interpolation x y
      [[x1; y1; q11]; [x1'; y2; q12]; [x2; y1'; q21]; [x2'; y2'; q22]]
    = Raise (ValueError "(x, y) not within the rectangle").
Proof.
  intros x y x1 y1 q11 x1' y2 q12 x2 y1' q21 x2' y2' q22 Ex1 Ex2 Ey1 Ey2 Hout.
  unfold bilinear_interpolation. cbn [mapM view_f8x3 bind].
  rewrite Ex1, Ex2, Ey1, Ey2. cbn [negb orb].
  assert (C : negb ((x1 <=? x)%float && (x <=? x2)%float)
              || negb ((y1 <=? y)%float && (y <=? y2)%float) = true).
  { destruct Hout as [H | [H | [H | H]]]; apply ltb_not_leb in H; rewrite H;
      rewrite ?andb_false_r; cbn; now rewrite ?orb_true_r. }
  now rewrite C.
Qed.

Lemma bilinear_interpolation_outside_witness :
  bilinear_interpolation 25 5
    [[10; 4; 100]; [10; 6; 150]; [20; 4; 200]; [20; 6; 300]]%float
  = Raise (ValueError "(x, y) not within the rectangle").
Proof.
  apply (bilinear_interpolation_outside 25 5 10 4 100 10 6 150 20 4 200 20 6 300);
    try reflexivity.
  right. left. reflexivity.
Defined.

(** X6. When the four rows pass the rectangle check, a query point with a NaN
    coordinate raises ['(x, y) not within the rectangle']: NaN is not passed
    through to the result. *)
Theorem bilinear_interpolation_nan_query :
  forall x y x1 y1 q11 x1' y2 q12 x2 y1' q21 x2' y2' q22 : float,
    (x1 =? x1')%float = true -> (x2 =? x2')%float = true ->
    (y1 =? y1')%float = true -> (y2 =? y2')%float = true ->
    PrimFloat.is_nan x = true \/ PrimFloat.is_nan y = true ->
    bilinear_interpolation x y
      [[x1; y1; q11]; [x1'; y2; q12]; [x2; y1'; q21]; [x2'; y2'; q22]]
    = Raise (ValueError "(x, y) not within the rectangle").
Proof.
  intros x y x1 y1 q11 x1' y2 q12 x2 y1' q21 x2' y2' q22 Ex1 Ex2 Ey1 Ey2 Hnan.
  unfold bilinear_interpolation. cbn [mapM view_f8x3 bind].
  rewrite Ex1, Ex2, Ey1, Ey2. cbn [negb orb].
  assert (C : negb ((x1 <=? x)%float && (x <=? x2)%float)
              || negb ((y1 <=? y)%float && (y <=? y2)%float) = true).
  { destruct Hnan as [H | H].
    - destruct (nan_compares_false x x1 H) as (_ & _ & _ & ->). reflexivity.
    - destruct (nan_compares_false y y1 H) as (_ & _ & _ & ->).
      cbn. now rewrite orb_true_r. }
  now rewrite C.
Qed.

Lemma bilinear_interpolation_nan_query_witness :
  bilinear_interpolation nan 5
    [[10; 4; 100]; [10; 6; 150]; [20; 4; 200]; [20; 6; 300]]%float
  = Raise (ValueError "(x, y) not within the rectangle").
Proof.
  apply (bilinear_interpolation_nan_query nan 5 10 4 100 10 6 150 20 4 200 20 6 300);
    try reflexivity.
  left. reflexivity.
Defined.

(** X7. Four rows of three values one of whose corner coordinates is NaN are
    refused as not a rectangle, whatever the query point: NaN differs from
    everything, itself included. *)
Theorem bilinear_interpolation_nan_corner :
  forall x y x1 y1 q11 x1' y2 q12 x2 y1' q21 x2' y2' q22 : float,
    existsb PrimFloat.is_nan [x1; x1'; x2; x2'; y1; y1'; y2; y2'] = true ->
    bilinear_interpolation x y
      [[x1; y1; q11]; [x1'; y2; q12]; [x2; y1'; q21]; [x2'; y2'; q22]]
    = Raise (ValueError "points do not form a rectangle").
Proof.
  intros x y x1 y1 q11 x1' y2 q12 x2 y1' q21 x2' y2' q22 Hnan.
  unfold bilinear_interpolation. cbn [mapM view_f8x3 bind].
  assert (C : negb (x1 =? x1')%float || negb (x2 =? x2')%float
              || negb (y1 =? y1')%float || negb (y2 =? y2')%float = true).
  { cbn [existsb] in Hnan. rewrite orb_false_r in Hnan.
    repeat (apply orb_true_iff in Hnan as [Hnan | Hnan]);
      match type of Hnan with
      | PrimFloat.is_nan ?a = true =>
          match goal with
          | |- context [(a =? ?b)%float] =>
              destruct (nan_compares_false a b Hnan) as (-> & _)
          | |- context [(?b =? a)%float] =>
              destruct (nan_compares_false a b Hnan) as (_ & -> & _)
          end
      end; cbn; now rewrite ?orb_true_r. }
  now rewrite C.
Qed.

Lemma bilinear_interpolation_nan_corner_witness :
  bilinear_interpolation 12 5
    [[10; 4; 100]; [10; 6; 150]; [20; nan; 200]; [20; 6; 300]]%float
  = Raise (ValueError "points do not form a rectangle").
Proof.
  apply (bilinear_interpolation_nan_corner 12 5 10 4 100 10 6 150 20 nan 200 20 6 300).
  reflexivity.
Defined.

(** ** set_wmm_model and the declination pipeline *)

Lemma mapM_ext {A B : Type} (f g : A -> result B) (l : list A) :
  (forall a, f a = g a) -> mapM f l = mapM g l.
Proof.
  intros H. induction l as [|a l IH]; cbn; [reflexivity|].
  now rewrite H, IH.
Qed.

Lemma mapM_length {A B : Type} (f : A -> result B) (l : list A) (out : list B) :
  mapM f l = Return out -> List.length out = List.length l.
Proof.
  revert out. induction l as [|a l IH]; cbn; intros out H.
  - now injection H as <-.
  - destruct (f a) as [b|]; [|discriminate]. cbn in H.
    destruct (mapM f l) as [bs|]; [|discriminate]. cbn in H.
    injection H as <-. cbn. f_equal. now apply IH.
Qed.

Lemma observations_length (lat lon ts z : list float) :
  List.length lat = List.length ts ->
  List.length lon = List.length ts ->
  List.length z = List.length ts ->
  List.length (observations lat lon ts z) = List.length ts.
Proof.
  intros Hlat Hlon Hz. unfold observations.
  rewrite !length_combine, Hlat, Hlon, Hz. now rewrite !Nat.min_id.
Qed.

(** X8. [set_wmm_model] never prints and never returns [None]; it returns a
    path exactly when the resource provider returns that path for the
    resource name built from the year. *)
Theorem set_wmm_model_outcome :
  forall (resource_filename : string -> string -> result string) (year : Z),
    fst (set_wmm_model resource_filename year) = [] /\
    snd (set_wmm_model resource_filename year) <> Return None /\
    forall path : string,
      snd (set_wmm_model resource_filename year) = Return (Some path) <->
      resource_filename __name__
        ("WMM" ++ pad_left 4 (py_str (VInt year)) ++ ".COF")%string = Return path.
Proof.
  intros provider year.
  destruct (set_wmm_model_silent provider year) as [Hout Hnone].
  repeat split; trivial.
  - unfold set_wmm_model. rewrite cof_file_name.
    destruct (provider _ _) as [p|[ | | | |e| ]]; cbn [snd];
      try rewrite handler_message_fails; cbn [snd]; congruence.
  - intros H. now rewrite (set_wmm_model_found provider year path H).
Qed.

(** X9. An exception of the resource provider other than its resolution error
    leaves [set_wmm_model] unchanged: only [ResolutionError] is caught. *)
Theorem set_wmm_model_other_errors_propagate :
  forall (resource_filename : string -> string -> result string) (year : Z)
         (e : exn),
    (forall msg, e <> ResolutionError msg) ->
    resource_filename __name__
      ("WMM" ++ pad_left 4 (py_str (VInt year)) ++ ".COF")%string = Raise e ->
    set_wmm_model resource_filename year = ([], Raise e).
Proof.
  intros provider year e Hne H. unfold set_wmm_model.
  rewrite cof_file_name, H.
  destruct e as [ | | | |msg| ]; try reflexivity.
  now destruct (Hne msg).
Qed.

Lemma set_wmm_model_other_errors_propagate_witness :
  set_wmm_model (fun _ _ => Raise (TypeError "resource name")) 2010
  = ([], Raise (TypeError "resource name")).
Proof.
  apply (set_wmm_model_other_errors_propagate
           (fun _ _ => Raise (TypeError "resource name")) 2010
           (TypeError "resource name")).
  - intros msg. discriminate.
  - reflexivity.
Defined.

(** X10. The orientation flag has no effect: for every input,
    [wmm_declination_remod] and [magnetic_declination] give the same result
    with any two values of [zflag]. *)
Theorem zflag_has_no_effect :
  forall (resource_filename : string -> string -> result string)
         (wmm_t : Type) (WMM : option string -> result wmm_t)
         (declination : wmm_t -> float -> float -> float -> date -> float)
         (zflag zflag' : Z),
    (forall (lat lon ntp_timestamp : float) (wmm : wmm_t) (z : float),
        wmm_declination_remod wmm_t declination lat lon ntp_timestamp wmm z zflag
        = wmm_declination_remod wmm_t declination lat lon ntp_timestamp wmm z zflag') /\
    (forall lat lon ntp_timestamp z : list float,
        magnetic_declination resource_filename wmm_t WMM declination
          lat lon ntp_timestamp z zflag
        = magnetic_declination resource_filename wmm_t WMM declination
            lat lon ntp_timestamp z zflag').
Proof.
  intros provider wmm_t WMM declination zflag zflag'.
  assert (R : forall lat lon t wmm z,
             wmm_declination_remod wmm_t declination lat lon t wmm z zflag
             = wmm_declination_remod wmm_t declination lat lon t wmm z zflag')
    by (intros; now rewrite !wmm_declination_remod_depth).
  split; [exact R|].
  intros lat lon ts z. unfold magnetic_declination.
  destruct (snd (set_wmm_model provider 2010)) as [m|]; [|reflexivity].
  cbn [bind]. destruct (WMM m) as [wmm|]; [|reflexivity]. cbn [bind].
  unfold vectorize_wmm_declination_remod.
  destruct lat as [|la0 lat], lon as [|lo0 lon], ts as [|t0 ts], z as [|z0 z];
    try reflexivity.
  rewrite (R la0 lo0 t0 wmm z0).
  destruct (wmm_declination_remod wmm_t declination la0 lo0 t0 wmm z0 zflag');
    [|reflexivity].
  cbn [bind]. destruct (broadcast_shape _) as [n|]; [|reflexivity].
  f_equal. apply mapM_ext. intros [[[la lo] t] zz]. apply R.
Qed.

Lemma wmm_declination_remod_is_wmm_declination_aux
  (resource_filename : string -> string -> result string)
  (wmm_t : Type) (WMM : option string -> result wmm_t)
  (declination : wmm_t -> float -> float -> float -> date -> float)
  (wmm_model : option string) (wmm : wmm_t)
  (lat lon ntp_timestamp z : float) (zflag : Z) :
  snd (set_wmm_model resource_filename 2010) = Return wmm_model ->
  WMM wmm_model = Return wmm ->
  wmm_declination resource_filename wmm_t WMM declination
    lat lon ntp_timestamp z zflag
  = wmm_declination_remod wmm_t declination lat lon ntp_timestamp wmm z zflag.
Proof.
  intros Hm Hw. unfold wmm_declination, wmm_declination_remod.
  destruct (utcfromtimestamp_date _) as [d|]; [|reflexivity].
  cbn [bind]. rewrite Hm. cbn [bind]. now rewrite Hw.
Qed.

(** X11. [wmm_declination_remod] is [wmm_declination] with the model handed
    in: once the 2010 coefficients resolve to a model, both give the same
    result on every input. *)
Theorem wmm_declination_remod_is_wmm_declination :
  forall (resource_filename : string -> string -> result string)
         (wmm_t : Type) (WMM : option string -> result wmm_t)
         (declination : wmm_t -> float -> float -> float -> date -> float)
         (wmm_model : option string) (wmm : wmm_t)
         (lat lon ntp_timestamp z : float) (zflag : Z),
    snd (set_wmm_model resource_filename 2010) = Return wmm_model ->
    WMM wmm_model = Return wmm ->
    wmm_declination resource_filename wmm_t WMM declination
      lat lon ntp_timestamp z zflag
    = wmm_declination_remod wmm_t declination lat lon ntp_timestamp wmm z zflag.
Proof.
  intros provider wmm_t WMM declination m wmm lat lon t z zflag Hm Hw.
  now apply (wmm_declination_remod_is_wmm_declination_aux provider wmm_t WMM
               declination m wmm).
Qed.

Lemma wmm_declination_remod_is_wmm_declination_witness :
  wmm_declination provider_all unit sample_WMM sample_declination
    45 (-128) 3575053740.7382507 1000 (-1)
  = wmm_declination_remod unit sample_declination
      45 (-128) 3575053740.7382507 tt 1000 (-1).
Proof.
  apply (wmm_declination_remod_is_wmm_declination
           provider_all unit sample_WMM sample_declination
           (Some "ion_functions.data.generic_functions/WMM2010.COF"%string) tt);
    reflexivity.
Defined.

(** X12. When [set_wmm_model 2010] raises, or the model constructor raises on
    the path it returned, [magnetic_declination] raises before it looks at a
    single observation: the result is that exception whatever the arrays. *)
Theorem magnetic_declination_model_failure :
  forall (resource_filename : string -> string -> result string)
         (wmm_t : Type) (WMM : option string -> result wmm_t)
         (declination : wmm_t -> float -> float -> float -> date -> float)
         (e : exn),
    (snd (set_wmm_model resource_filename 2010) = Raise e \/
     exists wmm_model,
       snd (set_wmm_model resource_filename 2010) = Return wmm_model /\
       WMM wmm_model = Raise e) ->
    forall (lat lon ntp_timestamp z : list float) (zflag : Z),
      magnetic_declination resource_filename wmm_t WMM declination
        lat lon ntp_timestamp z zflag = Raise e.
Proof.
  intros provider wmm_t WMM declination e H lat lon ts z zflag.
  unfold magnetic_declination.
  destruct H as [-> | (m & -> & Hw)]; [reflexivity|].
  cbn [bind]. now rewrite Hw.
Qed.

Lemma magnetic_declination_model_failure_witness :
  magnetic_declination (default_resource_filename ion_functions_data)
    unit failing_WMM sample_declination
    [45; 45]%float [-128; -128]%float
    [3575053740.7382507; 3471292800]%float [0; 1000]%float (-1)
  = Raise (OSError "cannot open the coefficient file").
Proof.
  apply (magnetic_declination_model_failure
           (default_resource_filename ion_functions_data)
           unit failing_WMM sample_declination
           (OSError "cannot open the coefficient file")).
  right. exists (Some "ion_functions/data/WMM2010.COF"%string).
  split; reflexivity.
Defined.

Lemma broadcast_shape_scalar_last (n : nat) :
  broadcast_shape [n; n; n; 1%nat] = Some n.
Proof.
  unfold broadcast_shape, broadcast_len. cbn [fold_left].
  destruct (n =? 1)%nat eqn:E.
  - apply Nat.eqb_eq in E. now subst.
  - cbn [Nat.eqb]. rewrite Nat.eqb_refl, E. cbn iota.
    now rewrite Nat.eqb_refl, E.
Qed.

(** X13. A single depth stands for every observation: with aligned,
    non-empty latitude, longitude and time arrays, a one-element [z] gives
    the same result as that depth repeated once per observation. *)
Theorem magnetic_declination_scalar_depth :
  forall (resource_filename : string -> string -> result string)
         (wmm_t : Type) (WMM : option string -> result wmm_t)
         (declination : wmm_t -> float -> float -> float -> date -> float)
         (lat lon ntp_timestamp : list float) (z0 : float) (zflag : Z),
    List.length lat = List.length ntp_timestamp ->
    List.length lon = List.length ntp_timestamp ->
    magnetic_declination resource_filename wmm_t WMM declination
      lat lon ntp_timestamp [z0] zflag
    = magnetic_declination resource_filename wmm_t WMM declination
        lat lon ntp_timestamp (repeat z0 (List.length ntp_timestamp)) zflag.
Proof.
  intros provider wmm_t WMM declination lat lon ts z0 zflag Hlat Hlon.
  unfold magnetic_declination.
  destruct (snd (set_wmm_model provider 2010)) as [m|]; [|reflexivity].
  cbn [bind]. destruct (WMM m) as [wmm|]; [|reflexivity]. cbn [bind].
  unfold vectorize_wmm_declination_remod.
  rewrite repeat_length, Hlat, Hlon. cbn [List.length].
  rewrite broadcast_shape_scalar_last, broadcast_shape_equal.
  rewrite (broadcast_to_same _ (repeat z0 (List.length ts)) (repeat_length _ _)).
  destruct lat as [|la0 lat], lon as [|lo0 lon], ts as [|t0 ts];
    try discriminate; reflexivity.
Qed.

Lemma magnetic_declination_scalar_depth_witness :
  magnetic_declination provider_all unit sample_WMM sample_declination
    [45; 80]%float [-128; 0]%float [3575053740.7382507; 3471292800]%float
    [1000]%float (-1)
  = magnetic_declination provider_all unit sample_WMM sample_declination
      [45; 80]%float [-128; 0]%float [3575053740.7382507; 3471292800]%float
      (repeat 1000%float
         (List.length [3575053740.7382507; 3471292800]%float)) (-1).
Proof.
  apply (magnetic_declination_scalar_depth
           provider_all unit sample_WMM sample_declination
           [45; 80]%float [-128; 0]%float
           [3575053740.7382507; 3471292800]%float 1000 (-1));
    reflexivity.
Defined.

(** X14. The result is aligned with the input: whenever [magnetic_declination]
    returns on aligned, non-empty arrays, it returns one declination per
    observation. *)
Theorem magnetic_declination_output_length :
  forall (resource_filename : string -> string -> result string)
         (wmm_t : Type) (WMM : option string -> result wmm_t)
         (declination : wmm_t -> float -> float -> float -> date -> float)
         (lat lon ntp_timestamp z : list float) (zflag : Z) (out : list float),
    List.length lat = List.length ntp_timestamp ->
    List.length lon = List.length ntp_timestamp ->
    List.length z = List.length ntp_timestamp ->
    ntp_timestamp <> [] ->
    magnetic_declination resource_filename wmm_t WMM declination
      lat lon ntp_timestamp z zflag = Return out ->
    List.length out = List.length ntp_timestamp.
Proof.
  intros provider wmm_t WMM declination lat lon ts z zflag out
         Hlat Hlon Hz Hne H.
  unfold magnetic_declination in H.
  destruct (snd (set_wmm_model provider 2010)) as [m|]; [|discriminate].
  cbn [bind] in H. destruct (WMM m) as [wmm|]; [|discriminate].
  cbn [bind] in H.
  rewrite (vectorize_equal_lengths _ _ _ _ _ _ _ _ Hlat Hlon Hz Hne) in H.
  destruct (mapM _ _) as [o|] eqn:E; [|discriminate].
  cbn in H. injection H as <-.
  rewrite (mapM_length _ _ _ E). now apply observations_length.
Qed.

Lemma magnetic_declination_output_length_witness :
  List.length
    [sample_declination tt 45 (-128) (0 / 1000) (mkdate 2013 4 15);
     sample_declination tt 80 0 (1000 / 1000) (mkdate 2010 1 1)]%float
  = List.length [3575053740.7382507; 3471292800]%float.
Proof.
  apply (magnetic_declination_output_length
           provider_all unit sample_WMM sample_declination
           [45; 80]%float [-128; 0]%float
           [3575053740.7382507; 3471292800]%float [0; 1000]%float (-1));
    try reflexivity.
  discriminate.
Defined.

(** X15. Arrays that cannot be broadcast are refused: with a resolved model
    and non-empty arrays whose first observation evaluates without raising,
    a latitude array whose length is neither 1 nor the common length of the
    other arrays (itself not 1) makes the call raise a [ValueError]. *)
Theorem magnetic_declination_shape_mismatch :
  forall (resource_filename : string -> string -> result string)
         (wmm_t : Type) (WMM : option string -> result wmm_t)
         (declination : wmm_t -> float -> float -> float -> date -> float)
         (la0 lo0 t0 z0 : float) (lat lon ntp_timestamp z : list float)
         (zflag : Z) (wmm_model : option string) (wmm : wmm_t),
    snd (set_wmm_model resource_filename 2010) = Return wmm_model ->
    WMM wmm_model = Return wmm ->
    List.length lon = List.length ntp_timestamp ->
    List.length z = List.length ntp_timestamp ->
    lat <> [] ->
    ntp_timestamp <> [] ->
    List.length lat <> List.length ntp_timestamp ->
    raises (wmm_declination_remod wmm_t declination la0 lo0 t0 wmm z0 zflag)
    = false ->
    exists msg,
      magnetic_declination resource_filename wmm_t WMM declination
        (la0 :: lat) (lo0 :: lon) (t0 :: ntp_timestamp) (z0 :: z) zflag
      = Raise (ValueError msg).
Proof.
  intros provider wmm_t WMM declination la0 lo0 t0 z0 lat lon ts z zflag m wmm
         Hm Hw Hlon Hz Hlat1 Hts1 Hne Hfirst.
  unfold magnetic_declination. rewrite Hm. cbn [bind]. rewrite Hw. cbn [bind].
  unfold vectorize_wmm_declination_remod.
  destruct (wmm_declination_remod wmm_t declination la0 lo0 t0 wmm z0 zflag);
    [|discriminate].
  cbn [bind List.length]. rewrite Hlon, Hz.
  unfold broadcast_shape, broadcast_len. cbn [fold_left].
  destruct lat as [|la1 lat]; [congruence|].
  destruct ts as [|t1 ts]; [congruence|].
  cbn [List.length Nat.eqb] in *.
  assert (E : (List.length lat =? List.length ts)%nat = false)
    by (apply Nat.eqb_neq; congruence).
  rewrite E. eexists. reflexivity.
Qed.

Lemma magnetic_declination_shape_mismatch_witness :
  exists msg,
    magnetic_declination provider_all unit sample_WMM sample_declination
      [45; 80; 0]%float [-128; 0]%float [3575053740.7382507; 3471292800]%float
      [0; 1000]%float (-1)
    = Raise (ValueError msg).
Proof.
  apply (magnetic_declination_shape_mismatch
           provider_all unit sample_WMM sample_declination
           45 (-128) 3575053740.7382507 0
           [80; 0]%float [0]%float [3471292800]%float [1000]%float (-1)
           (Some "ion_functions.data.generic_functions/WMM2010.COF"%string) tt);
    try reflexivity; discriminate.
Defined.

(** ** magnetic_correction *)

(** X21. An array of angles is only accepted with exactly two elements: for
    aligned velocity arrays and an array [theta] of any other length the
    matrix product is undefined and the call raises a [ValueError]. *)
Theorem magnetic_correction_array_theta_length :
  forall (thetas u v : list R),
    List.length u = List.length v ->
    List.length thetas <> 2%nat ->
    magnetic_correction (ThetaArray thetas) u v
    = Raise (ValueError "shapes not aligned").
Proof.
  intros ts u v Hlen Hts. unfold magnetic_correction, np_array_uv.
  rewrite Hlen, Nat.eqb_refl. cbn [bind].
  destruct ts as [|a [|b [|c ts]]]; try reflexivity.
  now destruct Hts.
Qed.

Lemma magnetic_correction_array_theta_length_witness :
  magnetic_correction (ThetaArray [10; 20; 30]%R) [1; 2; 3]%R [4; 5; 6]%R
  = Raise (ValueError "shapes not aligned").
Proof.
  apply (magnetic_correction_array_theta_length
           [10; 20; 30]%R [1; 2; 3]%R [4; 5; 6]%R).
  - reflexivity.
  - discriminate.
Defined.

(** ** error and ntp_to_unix_time on special values *)

Lemma Prim2SF_infinity : Prim2SF infinity = S754_infinity false.
Proof. vm_compute. reflexivity. Qed.

Lemma Prim2SF_zero : Prim2SF 0 = S754_zero false.
Proof. vm_compute. reflexivity. Qed.

Lemma Prim2SF_NTP_DELTA : Prim2SF NTP_DELTA = S754_finite false 4632585279897600 (-21).
Proof. vm_compute. reflexivity. Qed.

Lemma is_infinity_Prim2SF (f : float) :
  PrimFloat.is_infinity f = true -> exists s, Prim2SF f = S754_infinity s.
Proof.
  unfold PrimFloat.is_infinity.
  rewrite FloatAxioms.eqb_spec, abs_spec, Prim2SF_infinity.
  destruct (Prim2SF f) as [s|s| |s m e]; cbn; try discriminate. eauto.
Qed.

Lemma Prim2SF_is_infinity (f : float) (s : bool) :
  Prim2SF f = S754_infinity s -> PrimFloat.is_infinity f = true.
Proof.
  intros H. unfold PrimFloat.is_infinity.
  now rewrite FloatAxioms.eqb_spec, abs_spec, Prim2SF_infinity, H.
Qed.

Lemma is_zero_Prim2SF (f : float) :
  PrimFloat.is_zero f = true -> exists s, Prim2SF f = S754_zero s.
Proof.
  unfold PrimFloat.is_zero. rewrite FloatAxioms.eqb_spec.
  change (Prim2SF zero) with (Prim2SF 0). rewrite Prim2SF_zero.
  destruct (Prim2SF f) as [s|s| |s m e]; cbn; try discriminate;
    try (destruct s; discriminate). eauto.
Qed.

(** A finite float that is not a zero has a mantissa and an exponent. *)
Lemma finite_nonzero_Prim2SF (f : float) :
  PrimFloat.is_finite f = true -> PrimFloat.is_zero f = false ->
  exists s m e, Prim2SF f = S754_finite s m e.
Proof.
  unfold PrimFloat.is_finite. intros Hfin Hz.
  apply negb_true_iff, orb_false_iff in Hfin as [Hn Hi].
  destruct (Prim2SF f) as [s|s| |s m e] eqn:E.
  - exfalso. unfold PrimFloat.is_zero in Hz.
    rewrite FloatAxioms.eqb_spec in Hz.
    change (Prim2SF zero) with (Prim2SF 0) in Hz.
    now rewrite Prim2SF_zero, E in Hz.
  - now rewrite (Prim2SF_is_infinity f s E) in Hi.
  - now rewrite (Prim2SF_is_nan f E) in Hn.
  - eauto.
Qed.

(** X22. A value has no error relative to itself: for every finite, non-zero
    [y], [error y y] is exactly 0. *)
Theorem error_of_reference :
  forall y : float,
    PrimFloat.is_finite y = true -> PrimFloat.is_zero y = false ->
    error y y = 0%float.
Proof.
  intros y Hfin Hz.
  destruct (finite_nonzero_Prim2SF y Hfin Hz) as (s & m & e & E).
  apply Prim2SF_inj. unfold error.
  rewrite div_spec, !abs_spec, sub_spec, E, Prim2SF_zero.
  unfold SF64sub, SFsub. rewrite Z.sub_diag. reflexivity.
Qed.

Lemma error_of_reference_witness : error 16.46 16.46 = 0%float.
Proof. apply (error_of_reference 16.46); reflexivity. Defined.

(** X23. Against a zero reference the relative error is never a finite
    number, whatever [x] is: the division by [abs 0] gives NaN or an
    infinity. *)
Theorem error_zero_reference :
  forall x y : float,
    PrimFloat.is_zero y = true ->
    PrimFloat.is_finite (error x y) = false.
Proof.
  intros x y Hz. destruct (is_zero_Prim2SF y Hz) as (s & E).
  unfold PrimFloat.is_finite. apply negb_false_iff, orb_true_iff.
  assert (C : Prim2SF (error x y) = S754_nan \/
              Prim2SF (error x y) = S754_infinity false).
  { unfold error. rewrite div_spec, !abs_spec, sub_spec, E.
    destruct (Prim2SF x) as [sx|sx| |sx mx ex]; cbn; auto.
    destruct sx, s; cbn; auto. }
  destruct C as [C | C].
  - left. now apply Prim2SF_is_nan.
  - right. now apply (Prim2SF_is_infinity _ false).
Qed.

Lemma error_zero_reference_witness :
  PrimFloat.is_finite (error 16.46 0) = false.
Proof. apply (error_zero_reference 16.46 0). reflexivity. Defined.

(** X24. [ntp_to_unix_time] raises on nothing and lets the special values
    through: a NaN time stamp gives NaN and an infinite one is returned
    unchanged. *)
Theorem ntp_to_unix_time_special_values :
  forall t : float,
    (PrimFloat.is_nan t = true -> PrimFloat.is_nan (ntp_to_unix_time t) = true) /\
    (PrimFloat.is_infinity t = true -> ntp_to_unix_time t = t).
Proof.
  intros t. split.
  - intros H. now apply sub_nan_l.
  - intros H. destruct (is_infinity_Prim2SF t H) as (s & E).
    apply Prim2SF_inj. unfold ntp_to_unix_time.
    now rewrite sub_spec, E, Prim2SF_NTP_DELTA.
Qed.

Lemma ntp_to_unix_time_special_values_witness :
  PrimFloat.is_nan (ntp_to_unix_time nan) = true /\
  ntp_to_unix_time infinity = infinity /\
  ntp_to_unix_time neg_infinity = neg_infinity.
Proof.
  destruct (ntp_to_unix_time_special_values nan) as [Hn _].
  destruct (ntp_to_unix_time_special_values infinity) as [_ Hp].
  destruct (ntp_to_unix_time_special_values neg_infinity) as [_ Hm].
  split; [apply Hn; reflexivity|].
  split; [apply Hp | apply Hm]; reflexivity.
Defined.

(** ** The wrapper on one observation, and the resource name *)

(** X25. On a single observation the vectorised wrapper is the scalar
    function: once the 2010 coefficients resolve to a model,
    [magnetic_declination [lat] [lon] [t] [z] zflag] returns the one-element
    array of [wmm_declination lat lon t z zflag], or raises as it does. *)
Theorem magnetic_declination_single_observation :
  forall (resource_filename : string -> string -> result string)
         (wmm_t : Type) (WMM : option string -> result wmm_t)
         (declination : wmm_t -> float -> float -> float -> date -> float)
         (wmm_model : option string) (wmm : wmm_t)
         (lat lon ntp_timestamp z : float) (zflag : Z),
    snd (set_wmm_model resource_filename 2010) = Return wmm_model ->
    WMM wmm_model = Return wmm ->
    magnetic_declination resource_filename wmm_t WMM declination
      [lat] [lon] [ntp_timestamp] [z] zflag
    = (mag_dec <- wmm_declination resource_filename wmm_t WMM declination
                    lat lon ntp_timestamp z zflag ;;
       Return [mag_dec]).
Proof.
  intros provider wmm_t WMM declination m wmm lat lon t z zflag Hm Hw.
  rewrite (wmm_declination_remod_is_wmm_declination_aux
             provider wmm_t WMM declination m wmm lat lon t z zflag Hm Hw).
  unfold magnetic_declination. rewrite Hm. cbn [bind]. rewrite Hw.
  cbn. now destruct (wmm_declination_remod _ _ _ _ _ _ _ _).
Qed.

Lemma magnetic_declination_single_observation_witness :
  magnetic_declination provider_all unit sample_WMM sample_declination
    [45]%float [-128]%float [3575053740.7382507]%float [1000]%float (-1)
  = (mag_dec <- wmm_declination provider_all unit sample_WMM sample_declination
                  45 (-128) 3575053740.7382507 1000 (-1) ;;
     Return [mag_dec]).
Proof.
  apply (magnetic_declination_single_observation
           provider_all unit sample_WMM sample_declination
           (Some "ion_functions.data.generic_functions/WMM2010.COF"%string) tt);
    reflexivity.
Defined.

Lemma four_digit_years_unpadded :
  forallb (fun n : nat =>
             String.eqb (pad_left 4 (py_str (VInt (Z.of_nat n))))
                        (py_str (VInt (Z.of_nat n))))
          (seq (Z.to_nat 1000) (Z.to_nat 9000)) = true.
Proof. vm_compute. reflexivity. Qed.

Lemma short_years_padded :
  forallb (fun n : nat =>
             (String.length (pad_left 4 (py_str (VInt (Z.of_nat n)))) =? 4)%nat)
          (seq 0 (Z.to_nat 10000)) = true.
Proof. vm_compute. reflexivity. Qed.

(** X26. The resource asked for is [WMM<year>.COF]: for a four-digit year the
    name carries the decimal year with no padding, and for every year from 0
    to 9999 the year field is exactly four characters wide (shorter years
    are padded with spaces on the left). *)
Theorem cof_file_year_field :
  forall year : Z,
    0 <= year <= 9999 ->
    exists field : string,
      py_format "WMM%4d.COF" [VInt year]
      = Return ("WMM" ++ field ++ ".COF")%string /\
      String.length field = 4%nat /\
      (1000 <= year -> field = NilZero.string_of_int (Z.to_int year)).
Proof.
  intros year Hy. exists (pad_left 4 (py_str (VInt year))).
  split; [apply cof_file_name|].
  rewrite <- (Z2Nat.id year) by lia. split.
  - pose proof short_years_padded as H. rewrite forallb_forall in H.
    apply Nat.eqb_eq, (H (Z.to_nat year)), in_seq. lia.
  - intros Hbig.
    pose proof four_digit_years_unpadded as H. rewrite forallb_forall in H.
    apply String.eqb_eq, (H (Z.to_nat year)), in_seq. lia.
Qed.

Lemma cof_file_year_field_witness :
  exists field : string,
    py_format "WMM%4d.COF" [VInt 2010] = Return ("WMM" ++ field ++ ".COF")%string /\
    String.length field = 4%nat /\
    (1000 <= 2010 -> field = NilZero.string_of_int (Z.to_int 2010)).
Proof. apply (cof_file_year_field 2010). lia. Defined.

(** ** bilinear_interpolation on the wrong number of rows *)

Lemma view_f8x3_raises_ValueError (row : list float) (e : exn) :
  view_f8x3 row = Raise e -> exists msg, e = ValueError msg.
Proof.
  assert (G : forall (n : nat) (r : list float) (e' : exn),
             (List.length r <= n)%nat -> view_f8x3 r = Raise e' ->
             exists msg, e' = ValueError msg).
  { induction n as [|n IH]; intros r e' Hn H.
    - destruct r; [discriminate | cbn in Hn; lia].
    - destruct r as [|a [|b [|c rest]]]; cbn in H; try discriminate;
        try (injection H as <-; eauto).
      destruct (view_f8x3 rest) as [rs|e''] eqn:E; cbn in H; [discriminate|].
      injection H as <-. apply (IH rest); [cbn in Hn; lia | exact E]. }
  exact (G (List.length row) row e (Nat.le_refl _)).
Qed.

Lemma mapM_view_raises_ValueError (points : list (list float)) (e : exn) :
  mapM view_f8x3 points = Raise e -> exists msg, e = ValueError msg.
Proof.
  revert e. induction points as [|row points IH]; cbn; intros e H;
    [discriminate|].
  destruct (view_f8x3 row) as [r|e'] eqn:E; cbn in H.
  - destruct (mapM view_f8x3 points) as [rs|e''] eqn:E'; cbn in H;
      [discriminate|].
    injection H as <-. now apply IH.
  - injection H as <-. now apply (view_f8x3_raises_ValueError row).
Qed.

(** X27. Anything but four rows is refused: for every array of rows whose
    length is not 4, the empty array included, [bilinear_interpolation]
    raises a [ValueError], whatever the query point. *)
Theorem bilinear_interpolation_row_count :
  forall (x y : float) (points : list (list float)),
    List.length points <> 4%nat ->
    exists msg, bilinear_interpolation x y points = Raise (ValueError msg).
Proof.
  intros x y points Hlen. unfold bilinear_interpolation.
  destruct (mapM view_f8x3 points) as [views|e] eqn:E; cbn [bind].
  - destruct points as [|r1 [|r2 [|r3 [|r4 [|r5 rest]]]]];
      try (now destruct Hlen); eexists;
      repeat match goal with
             | |- context [match ?r with [] => _ | _ :: _ => _ end] =>
                 is_var r; destruct r
             end; reflexivity.
  - destruct (mapM_view_raises_ValueError points e E) as (msg & ->).
    now exists msg.
Qed.

Lemma bilinear_interpolation_row_count_witness :
  exists msg, bilinear_interpolation 12 5.5 [] = Raise (ValueError msg).
Proof.
  apply (bilinear_interpolation_row_count 12 5.5 []). discriminate.
Defined.
